(** * J-A-C-K: the state synchronization engine of [src/App.tsx]

    A shallow embedding of the [App] component's engine: the three local
    collections (repair orders, master inventory, inventory alerts), the
    mutation handlers [addRO], [updateRO], [updateInventory] and
    [addInventoryAlert], the bootstrap [fetchInitialData] with the effect
    that runs it, and the part of the render function that selects the
    screen.

    Modelling conventions.
    - A React state variable is a field of [AppState].  A handler is a
      closure created by one render: what it reads through the closure
      ([masterInventory], [isDemoMode]) comes from the render's snapshot,
      the handler's first argument [render]; what it writes goes through a
      setter, and an updater function [prev => ...] is applied to the
      pending state held by the [World].
    - Handlers run in the monad [M]: state passing over the [World] plus a
      thrown completion (a rejected [await]).  Every setter call, remote
      call and console line is appended to the world's [trace], so the order
      of effects can be stated.
    - The Supabase client is an oracle from calls to replies; [Date.now()]
      is the sequence [dateNow] of clock readings, consumed one per call.
    - Quantities are JavaScript numbers with an integer value, or an
      infinity or NaN ([JsNumber]); [jsAdd] is the addition of doubles on
      them (round to nearest, ties to even, overflow to an infinity) and
      [jsLe] their comparison.
    - A thrown or rejected value is an object or null/undefined; reading
      [.message] of the latter throws a TypeError. *)

From Stdlib Require Import ZArith String List Lia.
From stdpp Require Import base list strings gmap pretty.

Local Open Scope string_scope.
Local Open Scope list_scope.

(** ** Data model *)

(** A JavaScript number whose value is an integer, an infinity or NaN.
    [Finite z] is a number of the language when [z] is a double, which is
    when [roundToDouble] leaves it as it is. *)
Inductive JsNumber : Type :=
| Finite (z : Z)
| PosInfinity
| NegInfinity
| NaN.

(** The double nearest to the integer [z], ties to the even significand,
    with the exponent unbounded: below 2^53 every integer is a double; from
    there on 53 significant bits are kept. *)
Definition roundToDouble (z : Z) : Z :=
  let m := Z.abs z in
  if (m <? 2 ^ 53)%Z then z
  else
    let e := (Z.log2 m - 52)%Z in
    let q := (m / 2 ^ e)%Z in
    let r := (m mod 2 ^ e)%Z in
    let half := (2 ^ (e - 1))%Z in
    let q' := if (r <? half)%Z then q
              else if (half <? r)%Z then (q + 1)%Z
              else if Z.even q then q else (q + 1)%Z in
    (Z.sgn z * (q' * 2 ^ e))%Z.

(** The number the exact integer [z] is delivered as: its nearest double,
    or an infinity when that is 2^1024 or more in magnitude. *)
Definition deliver (z : Z) : JsNumber :=
  let r := roundToDouble z in
  if (2 ^ 1024 <=? r)%Z then PosInfinity
  else if (r <=? - 2 ^ 1024)%Z then NegInfinity
  else Finite r.

(** [a + b] on numbers. *)
Definition jsAdd (a b : JsNumber) : JsNumber :=
  match a, b with
  | NaN, _ | _, NaN => NaN
  | PosInfinity, NegInfinity | NegInfinity, PosInfinity => NaN
  | PosInfinity, _ | _, PosInfinity => PosInfinity
  | NegInfinity, _ | _, NegInfinity => NegInfinity
  | Finite x, Finite y => deliver (x + y)
  end.

(** [a <= b] on numbers: false as soon as one side is NaN. *)
Definition jsLe (a b : JsNumber) : bool :=
  match a, b with
  | NaN, _ | _, NaN => false
  | NegInfinity, _ | _, PosInfinity => true
  | _, NegInfinity | PosInfinity, _ => false
  | Finite x, Finite y => (x <=? y)%Z
  end.

(** A JSON value held by an object property or a wire column. *)
Inductive JsVal : Type :=
| JNum (n : JsNumber)
| JStr (s : string)
| JNull.

(** A row on the wire: column name to value. *)
Abbreviation Row := (gmap string JsVal).

(** [RepairOrder] of [./types].  The engine reads only [id]; every other
    property of the object (status, technician, line items, ...) is kept in
    [fields], keyed by property name, an absent property being an absent
    key. *)
Module RepairOrder.
Record t : Type := mk {
  id : string;
  fields : gmap string JsVal
}.
End RepairOrder.

(** [Part] of [./types]: the four properties the engine names, and the
    remaining ones in [fields]. *)
Module Part.
Record t : Type := mk {
  partNumber : string;
  description : string;
  quantityOnHand : JsNumber;
  reorderPoint : JsNumber;
  fields : gmap string JsVal
}.

(** The object spread [{ ...part, quantityOnHand: q }]. *)
Definition withQuantityOnHand (part : t) (q : JsNumber) : t :=
  {| partNumber := partNumber part;
     description := description part;
     quantityOnHand := q;
     reorderPoint := reorderPoint part;
     fields := fields part |}.
End Part.

(** [Omit<InventoryAlert, 'id' | 'timestamp'>], the argument of
    [addInventoryAlert]. *)
Module AlertInput.
Record t : Type := mk {
  partNumber : string;
  message : string;
  roId : string;
  reason : string
}.
End AlertInput.

Module InventoryAlert.
Record t : Type := mk {
  id : string;
  partNumber : string;
  message : string;
  roId : string;
  reason : string;
  timestamp : Z
}.
End InventoryAlert.

(** A caught or returned error object (or a primitive other than null and
    undefined); [message] may be missing. *)
Module JsError.
Record t : Type := mk { message : option string }.
End JsError.

(** ** The remote store *)

(** The query-builder chains the component awaits. *)
Inductive RemoteCall : Type :=
| Select (table : string)
    (* from(table).select('*') *)
| Insert (table : string) (rows : list Row)
    (* from(table).insert(rows) *)
| Update (table : string) (payload : Row) (column : string) (key : JsVal).
    (* from(table).update(payload).eq(column, key) *)

(** What an awaited chain gives: the object [{ data, error }], or a
    rejection with a value, [None] being null or undefined. *)
Inductive Reply : Type :=
| Resolved (data : option (list Row)) (error : option JsError.t)
| Rejected (e : option JsError.t).

(** The client exported by [./supabaseClient]. *)
Definition Client : Type := RemoteCall → Reply.

(** ** Component state *)

Record AppState : Type := mkAppState {
  repairOrders : list RepairOrder.t;
  masterInventory : list Part.t;
  inventoryAlerts : list InventoryAlert.t;
  isDemoMode : bool;
  isLoading : bool;
  error : option string
}.

(** The [useState] initial values. *)
Definition initialState : AppState :=
  {| repairOrders := [];
     masterInventory := [];
     inventoryAlerts := [];
     isDemoMode := false;
     isLoading := true;
     error := None |}.

Inductive Slot : Type :=
| SRepairOrders | SMasterInventory | SInventoryAlerts
| SIsDemoMode | SIsLoading | SError.

Definition updateSlot_repairOrders
    (f : list RepairOrder.t → list RepairOrder.t) (s : AppState) : AppState :=
  {| repairOrders := f (repairOrders s);
     masterInventory := masterInventory s;
     inventoryAlerts := inventoryAlerts s;
     isDemoMode := isDemoMode s;
     isLoading := isLoading s;
     error := error s |}.

Definition updateSlot_masterInventory
    (f : list Part.t → list Part.t) (s : AppState) : AppState :=
  {| repairOrders := repairOrders s;
     masterInventory := f (masterInventory s);
     inventoryAlerts := inventoryAlerts s;
     isDemoMode := isDemoMode s;
     isLoading := isLoading s;
     error := error s |}.

Definition updateSlot_inventoryAlerts
    (f : list InventoryAlert.t → list InventoryAlert.t) (s : AppState)
    : AppState :=
  {| repairOrders := repairOrders s;
     masterInventory := masterInventory s;
     inventoryAlerts := f (inventoryAlerts s);
     isDemoMode := isDemoMode s;
     isLoading := isLoading s;
     error := error s |}.

Definition updateSlot_isDemoMode (b : bool) (s : AppState) : AppState :=
  {| repairOrders := repairOrders s;
     masterInventory := masterInventory s;
     inventoryAlerts := inventoryAlerts s;
     isDemoMode := b;
     isLoading := isLoading s;
     error := error s |}.

Definition updateSlot_isLoading (b : bool) (s : AppState) : AppState :=
  {| repairOrders := repairOrders s;
     masterInventory := masterInventory s;
     inventoryAlerts := inventoryAlerts s;
     isDemoMode := isDemoMode s;
     isLoading := b;
     error := error s |}.

Definition updateSlot_error (e : option string) (s : AppState) : AppState :=
  {| repairOrders := repairOrders s;
     masterInventory := masterInventory s;
     inventoryAlerts := inventoryAlerts s;
     isDemoMode := isDemoMode s;
     isLoading := isLoading s;
     error := e |}.

(** ** Effects *)

Inductive Event : Type :=
| EvSet (slot : Slot)             (* a React setter was called *)
| EvRemote (call : RemoteCall)    (* a request was issued *)
| EvConsoleError (e : option JsError.t). (* console.error *)

Record World : Type := mkWorld {
  state : AppState;       (* the pending component state *)
  clockReads : nat;       (* calls to Date.now() so far *)
  trace : list Event      (* effects so far, oldest first *)
}.

(** How a call completes; a thrown value is an object or, as [None], null
    or undefined. *)
Inductive Completion (A : Type) : Type :=
| Normal (a : A)
| Thrown (e : option JsError.t).
Arguments Normal {A} a.
Arguments Thrown {A} e.

Definition M (A : Type) : Type := World → Completion A * World.

Definition ret {A} (a : A) : M A := λ w, (Normal a, w).

Definition bind {A B} (m : M A) (k : A → M B) : M B :=
  λ w, match m w with
       | (Normal a, w') => k a w'
       | (Thrown e, w') => (Thrown e, w')
       end.

Definition throw {A} (e : option JsError.t) : M A := λ w, (Thrown e, w).

(** [try { body } catch (e) { handler e } finally { final }], no block
    returning a value: the final block runs on every path, and what the
    handler throws is thrown on after it unless the final block throws
    itself. *)
Definition tryCatchFinally (body : M unit)
    (handler : option JsError.t → M unit) (final : M unit) : M unit :=
  λ w, match body w with
       | (Normal _, w1) => final w1
       | (Thrown e, w1) =>
           match handler e w1 with
           | (Normal _, w2) => final w2
           | (Thrown e', w2) =>
               match final w2 with
               | (Normal _, w3) => (Thrown e', w3)
               | (Thrown e'', w3) => (Thrown e'', w3)
               end
           end
       end.

Declare Scope app_scope.
Delimit Scope app_scope with app.
Notation "x <- m ;; k" := (bind m (λ x, k))
  (at level 100, m at next level, right associativity) : app_scope.
Notation "m ;; k" := (bind m (λ _, k))
  (at level 100, right associativity) : app_scope.
Local Open Scope app_scope.

Definition emit (ev : Event) (w : World) : World :=
  {| state := state w; clockReads := clockReads w; trace := trace w ++ [ev] |}.

Definition modify (slot : Slot) (f : AppState → AppState) : M unit :=
  λ w, (Normal tt,
        emit (EvSet slot)
          {| state := f (state w); clockReads := clockReads w;
             trace := trace w |}).

Definition setRepairOrders (f : list RepairOrder.t → list RepairOrder.t)
    : M unit := modify SRepairOrders (updateSlot_repairOrders f).
Definition setMasterInventory (f : list Part.t → list Part.t) : M unit :=
  modify SMasterInventory (updateSlot_masterInventory f).
Definition setInventoryAlerts
    (f : list InventoryAlert.t → list InventoryAlert.t) : M unit :=
  modify SInventoryAlerts (updateSlot_inventoryAlerts f).
Definition setIsDemoMode (b : bool) : M unit :=
  modify SIsDemoMode (updateSlot_isDemoMode b).
Definition setIsLoading (b : bool) : M unit :=
  modify SIsLoading (updateSlot_isLoading b).
Definition setError (e : option string) : M unit :=
  modify SError (updateSlot_error e).

Definition console_error (e : option JsError.t) : M unit :=
  λ w, (Normal tt, emit (EvConsoleError e) w).

(** [await chain]: the request is issued, then the reply is delivered. *)
Definition await (client : Client) (call : RemoteCall)
    : M (option (list Row) * option JsError.t) :=
  λ w, match client call with
       | Resolved data err => (Normal (data, err), emit (EvRemote call) w)
       | Rejected e => (Thrown e, emit (EvRemote call) w)
       end.

(** The requests in a trace, oldest first. *)
Fixpoint remoteCalls (t : list Event) : list RemoteCall :=
  match t with
  | [] => []
  | EvRemote c :: t' => c :: remoteCalls t'
  | _ :: t' => remoteCalls t'
  end.

(** [a || b] on strings that may be undefined: the empty string is falsy. *)
Definition orElse (a : option string) (b : string) : string :=
  match a with
  | Some s => if String.eqb s "" then b else s
  | None => b
  end.

(** ** The component *)

Section App.

(** [toSnake] and [toCamel] of [./utils], at the types they are used. *)
Variable toSnake : RepairOrder.t → Row.
Variable toCamelOrders : list Row → list RepairOrder.t.
Variable toCamelParts : list Row → list Part.t.

(** The exports of [./supabaseClient]. *)
Variable isSupabaseConfigured : bool.
Variable supabase : option Client.

(** The n-th call of [Date.now()] returns [dateNow n]. *)
Variable dateNow : nat → Z.

(** The engine's message for a property read on null or undefined. *)
Variable typeErrorMessage : string.

(** [error.message] for a caught value. *)
Definition readMessage (error : option JsError.t) : M (option string) :=
  match error with
  | Some e => ret (JsError.message e)
  | None => throw (Some {| JsError.message := Some typeErrorMessage |})
  end.

Definition Date_now : M Z :=
  λ w, (Normal (dateNow (clockReads w)),
        {| state := state w; clockReads := S (clockReads w);
           trace := trace w |}).

Definition fetchInitialData : M unit :=
  setIsLoading true ;;
  setError None ;;
  match isSupabaseConfigured, supabase with
  | true, Some client =>
      tryCatchFinally
        (reply <- await client (Select "repair_orders") ;;
         let '(roData, roError) := reply in
         match roError with Some e => throw (Some e) | None => ret tt end ;;
         setRepairOrders (λ _, toCamelOrders (default [] roData)) ;;
         reply <- await client (Select "master_inventory") ;;
         let '(invData, invError) := reply in
         match invError with Some e => throw (Some e) | None => ret tt end ;;
         setMasterInventory (λ _, toCamelParts (default [] invData)))
        (λ error,
           console_error error ;;
           message <- readMessage error ;;
           setError (Some (orElse message
                             "Uplink to Command Database failed.")))
        (setIsLoading false)
  | _, _ =>
      setError (Some "SUPABASE_UNCONFIGURED") ;;
      setIsLoading false
  end.

(** The effect with dependency [isDemoMode]. *)
Definition effect_isDemoMode (render : AppState) : M unit :=
  if negb (isDemoMode render) then fetchInitialData
  else setIsLoading false ;; setError None.

Definition updateRO (render : AppState) (updatedRO : RepairOrder.t)
    : M unit :=
  setRepairOrders
    (λ prev, map (λ ro, if String.eqb (RepairOrder.id ro)
                                      (RepairOrder.id updatedRO)
                        then updatedRO else ro) prev) ;;
  match negb (isDemoMode render), supabase with
  | true, Some client =>
      _ <- await client
             (Update "repair_orders" (toSnake updatedRO)
                "id" (JStr (RepairOrder.id updatedRO))) ;;
      ret tt
  | _, _ => ret tt
  end.

Definition addInventoryAlert (alert : AlertInput.t) : M unit :=
  idStamp <- Date_now ;;
  timestamp <- Date_now ;;
  let newAlert :=
    {| InventoryAlert.id := "alert-" +:+ pretty idStamp;
       InventoryAlert.partNumber := AlertInput.partNumber alert;
       InventoryAlert.message := AlertInput.message alert;
       InventoryAlert.roId := AlertInput.roId alert;
       InventoryAlert.reason := AlertInput.reason alert;
       InventoryAlert.timestamp := timestamp |} in
  setInventoryAlerts (λ prev, newAlert :: prev).

Definition updateInventory (render : AppState) (partNumber : string)
    (quantityChange : JsNumber) (reason roId : string) : M unit :=
  match List.find (λ p, String.eqb (Part.partNumber p) partNumber)
          (masterInventory render) with
  | None => ret tt
  | Some partToUpdate =>
      let newQuantity :=
        jsAdd (Part.quantityOnHand partToUpdate) quantityChange in
      setMasterInventory
        (λ prev, map (λ part, if String.eqb (Part.partNumber part) partNumber
                              then Part.withQuantityOnHand part newQuantity
                              else part) prev) ;;
      (if jsLe newQuantity (Part.reorderPoint partToUpdate)
       then addInventoryAlert
              {| AlertInput.partNumber := partNumber;
                 AlertInput.message :=
                   "Low stock: " +:+ Part.description partToUpdate;
                 AlertInput.roId := roId;
                 AlertInput.reason := reason |}
       else ret tt) ;;
      match negb (isDemoMode render), supabase with
      | true, Some client =>
          _ <- await client
                 (Update "master_inventory"
                    {[ "quantity_on_hand" := JNum newQuantity ]}
                    "part_number" (JStr partNumber)) ;;
          ret tt
      | _, _ => ret tt
      end
  end.

Definition addRO (render : AppState) (newRO : RepairOrder.t) : M unit :=
  setRepairOrders (λ prev, prev ++ [newRO]) ;;
  match negb (isDemoMode render), supabase with
  | true, Some client =>
      _ <- await client (Insert "repair_orders" [toSnake newRO]) ;;
      ret tt
  | _, _ => ret tt
  end.

End App.

(** ** The screen selected by the render function *)

Inductive Screen : Type :=
| LoadingScreen        (* if (isLoading) ... *)
| UnconfiguredScreen   (* if (error === "SUPABASE_UNCONFIGURED") ... *)
| MainScreen.          (* the role pages *)

Definition screen (s : AppState) : Screen :=
  if isLoading s then LoadingScreen
  else match error s with
       | Some e =>
           if String.eqb e "SUPABASE_UNCONFIGURED" then UnconfiguredScreen
           else MainScreen
       | None => MainScreen
       end.

(** The two buttons of the unconfigured screen. *)
Inductive Button : Type :=
| RetryHandshake
| LaunchSimulationMode.



Section Session.

Variable toCamelOrders : list Row → list RepairOrder.t.
Variable toCamelParts : list Row → list Part.t.
Variable isSupabaseConfigured : bool.
Variable supabase : option Client.
Variable typeErrorMessage : string.

(** The effect as run after a render that committed the pending state. *)
Definition runEffect : M unit :=
  λ w, effect_isDemoMode toCamelOrders toCamelParts isSupabaseConfigured
         supabase typeErrorMessage (state w) w.

(** [window.location.reload()]: the component state starts over and the
    mount effect runs. *)
Definition reload : M unit :=
  λ w, runEffect {| state := initialState; clockReads := clockReads w;
                    trace := trace w |}.

Definition onClick (b : Button) : M unit :=
  match b with
  | RetryHandshake => reload
  | LaunchSimulationMode => setIsDemoMode true ;; runEffect
  end.

End Session.

(** The world after running [m] from [w], and how [m] completed. *)
Definition exec {A} (m : M A) (w : World) : World := snd (m w).
Definition completion {A} (m : M A) (w : World) : Completion A := fst (m w).

(** The part [masterInventory.find(p => p.partNumber === partNumber)]
    returns. *)
Definition findPart (partNumber : string) (inventory : list Part.t)
    : option Part.t :=
  List.find (λ p, String.eqb (Part.partNumber p) partNumber) inventory.

(** A call signals a condition to its caller when its promise is rejected:
    the one channel a function returning [Promise<void>] has. *)
Definition signalsError (c : Completion unit) : Prop :=
  ∃ e, c = Thrown e.

(** ** Concrete data: the scenarios of the specification *)

Module Scenario.

Definition eng001 (onHand : Z) : Part.t :=
  {| Part.partNumber := "ENG-001";
     Part.description := "Impeller kit";
     Part.quantityOnHand := Finite onHand;
     Part.reorderPoint := Finite 5;
     Part.fields := {[ "bin" := JStr "A4" ]} |}.

Definition prop014 : Part.t :=
  {| Part.partNumber := "PROP-014";
     Part.description := "Propeller 14in";
     Part.quantityOnHand := Finite 2;
     Part.reorderPoint := Finite 1;
     Part.fields := ∅ |}.

Definition ro1 (status : string) : RepairOrder.t :=
  {| RepairOrder.id := "RO-1";
     RepairOrder.fields := {[ "status" := JStr status ]} |}.

Definition ro2 : RepairOrder.t :=
  {| RepairOrder.id := "RO-2";
     RepairOrder.fields :=
       {[ "status" := JStr "ACTIVE"; "technicianId" := JStr "tech-1" ]} |}.

(** A running session holding [ENG-001] at [onHand] units. *)
Definition session (demo : bool) (onHand : Z) : AppState :=
  {| repairOrders := [ro1 "NEW"; ro2];
     masterInventory := [eng001 onHand; prop014];
     inventoryAlerts := [];
     isDemoMode := demo;
     isLoading := false;
     error := None |}.

Definition world (demo : bool) (onHand : Z) : World :=
  {| state := session demo onHand; clockReads := 0; trace := [] |}.

(** The world when the page has loaded and nothing has run yet. *)
Definition pageLoad : World :=
  {| state := initialState; clockReads := 0; trace := [] |}.

(** A clock that advances one millisecond per reading, and one that
    stands still over the readings taken. *)
Definition ticking (n : nat) : Z := (1700000000000 + Z.of_nat n)%Z.
Definition frozen (n : nat) : Z := 1700000000000%Z.

(** Clients: one that accepts everything, one whose every request is
    answered with an error object, one whose every request is rejected. *)
Definition accepting : Client := λ _, Resolved (Some []) None.
Definition failing (msg : string) : Client :=
  λ _, Resolved None (Some {| JsError.message := Some msg |}).
Definition rejecting (msg : string) : Client :=
  λ _, Rejected (Some {| JsError.message := Some msg |}).

(** A client whose every request is rejected with [undefined]. *)
Definition rejectingWithUndefined : Client := λ _, Rejected None.

(** The text one engine gives the TypeError of [readMessage]. *)
Definition typeErrorMessage : string :=
  "Cannot read properties of undefined (reading 'message')".

(** Stand-ins for [toSnake] and [toCamel], to run the handlers at concrete
    inputs. *)
Definition toSnake (ro : RepairOrder.t) : Row :=
  <[ "id" := JStr (RepairOrder.id ro) ]> (RepairOrder.fields ro).
Definition toCamelOrders (rows : list Row) : list RepairOrder.t :=
  map (λ r, {| RepairOrder.id :=
                 match r !! "id" with Some (JStr s) => s | _ => "" end;
               RepairOrder.fields := delete "id" r |}) rows.
Definition toCamelParts (rows : list Row) : list Part.t :=
  map (λ r, {| Part.partNumber :=
                 match r !! "part_number" with Some (JStr s) => s | _ => "" end;
               Part.description :=
                 match r !! "description" with Some (JStr s) => s | _ => "" end;
               Part.quantityOnHand :=
                 match r !! "quantity_on_hand" with
                 | Some (JNum n) => n | _ => Finite 0 end;
               Part.reorderPoint :=
                 match r !! "reorder_point" with
                 | Some (JNum n) => n | _ => Finite 0 end;
               Part.fields := ∅ |}) rows.

End Scenario.

(** ** Named parts of the handlers *)

(** The per-part function [updateInventory] maps over the inventory. *)
Definition setQuantity (partNumber : string) (q : JsNumber) (part : Part.t)
    : Part.t :=
  if String.eqb (Part.partNumber part) partNumber
  then Part.withQuantityOnHand part q else part.

(** The per-order function [updateRO] maps over the collection. *)
Definition replaceOrder (updatedRO ro : RepairOrder.t) : RepairOrder.t :=
  if String.eqb (RepairOrder.id ro) (RepairOrder.id updatedRO)
  then updatedRO else ro.

(** The alert [addInventoryAlert] builds when [n] clock readings have been
    taken before it runs. *)
Definition alertAt (dateNow : nat → Z) (n : nat) (alert : AlertInput.t)
    : InventoryAlert.t :=
  {| InventoryAlert.id := "alert-" +:+ pretty (dateNow n);
     InventoryAlert.partNumber := AlertInput.partNumber alert;
     InventoryAlert.message := AlertInput.message alert;
     InventoryAlert.roId := AlertInput.roId alert;
     InventoryAlert.reason := AlertInput.reason alert;
     InventoryAlert.timestamp := dateNow (S n) |}.

(** The argument [updateInventory] passes to [addInventoryAlert]. *)
Definition lowStock (p : Part.t) (partNumber reason roId : string)
    : AlertInput.t :=
  {| AlertInput.partNumber := partNumber;
     AlertInput.message := "Low stock: " +:+ Part.description p;
     AlertInput.roId := roId;
     AlertInput.reason := reason |}.

(** An alert was raised between two worlds: the log gained a head. *)
Definition alertRaised (w w' : World) : Prop :=
  ∃ a, inventoryAlerts (state w') = a :: inventoryAlerts (state w).

(** A reply that reports a failure: a rejected promise, or a resolved
    object whose [error] is set. *)
Definition failsWith (r : Reply) (e : JsError.t) : Prop :=
  r = Rejected (Some e) ∨ ∃ data, r = Resolved data (Some e).


(** ** Role, technician and the derived views *)

(** The members of [UserRole] the role bar has an icon for. *)
Inductive UserRole : Type :=
| SERVICE_MANAGER | PARTS_MANAGER | INVENTORY_MANAGER | TECHNICIAN
| BILLING | DATABASE | METRICS | ADMIN.

#[global] Instance UserRole_eq_dec : EqDecision UserRole.
Proof. solve_decision. Defined.

#[global] Instance JsNumber_eq_dec : EqDecision JsNumber.
Proof. solve_decision. Defined.

#[global] Instance JsVal_eq_dec : EqDecision JsVal.
Proof. solve_decision. Defined.

(** [a === b]: the same value, except that NaN is not equal to itself. *)
Definition strictEq (a b : JsVal) : bool :=
  match a with
  | JNum NaN => false
  | _ => bool_decide (a = b)
  end.

(** The state variables [role] and [currentTechnicianId]. *)
Record NavState : Type := mkNav {
  role : UserRole;
  currentTechnicianId : option string
}.

Definition initialNav : NavState :=
  {| role := SERVICE_MANAGER; currentTechnicianId := None |}.

(** The effect with dependency [role]. *)
Definition effect_role (n : NavState) : NavState :=
  if decide (role n ≠ TECHNICIAN)
  then {| role := role n; currentTechnicianId := None |}
  else n.

(** Truthiness of a [string | null]: null and the empty string are falsy. *)
Definition truthy (s : option string) : bool :=
  match s with
  | Some t => negb (String.eqb t "")
  | None => false
  end.

(** The clicks that write [role] or [currentTechnicianId]. *)
Inductive NavEvent : Type :=
| SelectRole (r : UserRole)
    (* role bar: onClick={() => setRole(roleKey)} *)
| IdentifyTechnician (id : string)
    (* technician view: onClick={() => setCurrentTechnicianId(tech.id)} *)
| Logout.
    (* Header: onLogout={() => setCurrentTechnicianId(null)} *)

(** Whether the element that carries the click is rendered: the technician
    buttons come from [renderTechnicianView], under
    [role === UserRole.TECHNICIAN] and [!currentTechnicianId]. *)
Definition rendered (n : NavState) (ev : NavEvent) : bool :=
  match ev with
  | SelectRole _ => true
  | IdentifyTechnician _ =>
      bool_decide (role n = TECHNICIAN) && negb (truthy (currentTechnicianId n))
  | Logout => true
  end.

(** One click and the effects of the render that follows; the role effect
    runs when [role] has changed. *)
Definition navStep (n : NavState) (ev : NavEvent) : NavState :=
  if rendered n ev then
    match ev with
    | SelectRole r =>
        if decide (r = role n) then n
        else effect_role
               {| role := r; currentTechnicianId := currentTechnicianId n |}
    | IdentifyTechnician id =>
        {| role := role n; currentTechnicianId := Some id |}
    | Logout => {| role := role n; currentTechnicianId := None |}
    end
  else n.

(** [ro.status === s] for a member [s] of [ROStatus]. *)
Definition hasStatus (ro : RepairOrder.t) (s : JsVal) : bool :=
  match RepairOrder.fields ro !! "status" with
  | Some v => strictEq v s
  | None => false
  end.

(** [ro.technicianId === currentTechnicianId]: a missing property is
    undefined, which is neither null nor a string. *)
Definition sameTechnician (ro : RepairOrder.t) (current : option string)
    : bool :=
  match RepairOrder.fields ro !! "technicianId", current with
  | Some (JStr s), Some t => String.eqb s t
  | Some JNull, None => true
  | _, _ => false
  end.

Section Views.

(** The members of [ROStatus] of [./types] the component names. *)
Variables ACTIVE READY_FOR_TECH AUTHORIZED PARTS_PENDING : JsVal.
Variables COMPLETED PENDING_INVOICE : JsVal.

Definition activeROForTech (repairOrders : list RepairOrder.t)
    (currentTechnicianId : option string) : option RepairOrder.t :=
  List.find
    (λ ro, (hasStatus ro ACTIVE || hasStatus ro READY_FOR_TECH)
           && sameTechnician ro currentTechnicianId)
    repairOrders.

(** The [repairOrders] prop of [PartsManagerPage]. *)
Definition partsManagerOrders (repairOrders : list RepairOrder.t)
    : list RepairOrder.t :=
  List.filter
    (λ ro, bool_decide (RepairOrder.fields ro !! "status"
                        ∈ [Some AUTHORIZED; Some PARTS_PENDING]))
    repairOrders.

(** The [repairOrders] prop of [BillingPage]. *)
Definition billingOrders (repairOrders : list RepairOrder.t)
    : list RepairOrder.t :=
  List.filter
    (λ ro, hasStatus ro COMPLETED || hasStatus ro PENDING_INVOICE)
    repairOrders.

End Views.

(** The id of the alert was built from one of the first [n] clock
    readings. *)
Definition stampedBefore (dateNow : nat → Z) (n : nat)
    (a : InventoryAlert.t) : Prop :=
  ∃ k, k < n ∧ InventoryAlert.id a = "alert-" +:+ pretty (dateNow k).

(** Every alert of the log has an id built from a reading already taken,
    and no two alerts of the log share an id. *)
Definition logUnique (dateNow : nat → Z) (w : World) : Prop :=
  Forall (stampedBefore dateNow (clockReads w)) (inventoryAlerts (state w))
  ∧ NoDup (InventoryAlert.id <$> inventoryAlerts (state w)).

(** ** More concrete data *)

Module Sample.

(** A second ENG-001 record, as a duplicated row would give. *)
Definition eng001dup : Part.t :=
  {| Part.partNumber := "ENG-001";
     Part.description := "Impeller kit (old bin)";
     Part.quantityOnHand := Finite 40;
     Part.reorderPoint := Finite 5;
     Part.fields := ∅ |}.

Definition duplicated : AppState :=
  {| repairOrders := [];
     masterInventory := [Scenario.eng001 10; Scenario.prop014; eng001dup];
     inventoryAlerts := [];
     isDemoMode := true;
     isLoading := false;
     error := None |}.

Definition duplicatedWorld : World :=
  {| state := duplicated; clockReads := 0; trace := [] |}.

Definition ro2done : RepairOrder.t :=
  {| RepairOrder.id := "RO-2";
     RepairOrder.fields :=
       {[ "status" := JStr "COMPLETED"; "technicianId" := JStr "tech-1" ]} |}.

(** A client holding one order and one part. *)
Definition stocked : Client :=
  λ call, match call with
          | Select "repair_orders" =>
              Resolved (Some [Scenario.toSnake Scenario.ro2]) None
          | Select _ =>
              Resolved
                (Some [ {[ "part_number" := JStr "PROP-014";
                           "description" := JStr "Propeller 14in";
                           "quantity_on_hand" := JNum (Finite 2);
                           "reorder_point" := JNum (Finite 1) ]} ]) None
          | _ => Resolved None None
          end.

(** A client whose first table reads and whose second is rejected. *)
Definition halfDown : Client :=
  λ call, match call with
          | Select "repair_orders" =>
              Resolved (Some [Scenario.toSnake Scenario.ro2]) None
          | _ => Rejected (Some {| JsError.message := Some "timeout" |})
          end.

End Sample.

(** * Properties *)

Ltac unfold_handlers :=
  unfold exec, completion, updateInventory, updateRO, addRO,
    addInventoryAlert, setRepairOrders, setMasterInventory,
    setInventoryAlerts, setIsDemoMode, setIsLoading, setError,
    console_error, modify, Date_now, await, bind, ret, throw, emit.

(** ** Numbers *)

Lemma roundToDouble_exact (z : Z) :
  (Z.abs z ≤ 2 ^ 53)%Z → roundToDouble z = z.
Proof.
  intros Hz. unfold roundToDouble.
  destruct (Z.ltb_spec (Z.abs z) (2 ^ 53)) as [|Hge]; [done|].
  assert (Hcases : z = (2 ^ 53)%Z ∨ z = (- 2 ^ 53)%Z) by lia.
  by destruct Hcases as [-> | ->]; vm_compute.
Qed.

Lemma deliver_exact (z : Z) :
  (Z.abs z ≤ 2 ^ 53)%Z → deliver z = Finite z.
Proof.
  intros Hz. unfold deliver. rewrite roundToDouble_exact by done.
  assert (Hbig : (2 ^ 53 < 2 ^ 1024)%Z) by (by vm_compute).
  destruct (Z.leb_spec (2 ^ 1024) z); [lia|].
  destruct (Z.leb_spec z (- 2 ^ 1024)); [lia|done].
Qed.

(** Within 2^53 the sum of two integers is exact. *)
Lemma jsAdd_exact (a b : Z) :
  (Z.abs (a + b) ≤ 2 ^ 53)%Z → jsAdd (Finite a) (Finite b) = Finite (a + b).
Proof. intros H. simpl. by apply deliver_exact. Qed.

(** ** Lists *)

Lemma cons_neq_self {A} (a : A) (l : list A) : a :: l ≠ l.
Proof.
  intros H. apply (f_equal length) in H. simpl in H. lia.
Qed.

Lemma remoteCalls_app (t t' : list Event) :
  remoteCalls (t ++ t') = remoteCalls t ++ remoteCalls t'.
Proof.
  induction t as [|ev t IH]; simpl; [done|].
  destruct ev; simpl; by rewrite IH.
Qed.

Lemma findPart_setQuantity (partNumber : string) (q : JsNumber) (l : list Part.t)
    (p : Part.t) :
  findPart partNumber l = Some p →
  findPart partNumber (map (setQuantity partNumber q) l)
  = Some (Part.withQuantityOnHand p q).
Proof.
  unfold findPart. induction l as [|x l IH]; simpl; [done|].
  assert (Hpn : Part.partNumber (setQuantity partNumber q x)
                = Part.partNumber x).
  { unfold setQuantity. by destruct (String.eqb _ _). }
  rewrite Hpn.
  destruct (String.eqb (Part.partNumber x) partNumber) eqn:E.
  - intros [= ->]. unfold setQuantity. by rewrite E.
  - exact IH.
Qed.

Lemma lookup_setQuantity (partNumber : string) (q : JsNumber) (l : list Part.t)
    (i : nat) :
  map (setQuantity partNumber q) l !! i = setQuantity partNumber q <$> l !! i.
Proof. apply list_lookup_fmap. Qed.

(** ** [addInventoryAlert] *)

Lemma addInventoryAlert_run (dateNow : nat → Z) (alert : AlertInput.t)
    (w : World) :
  addInventoryAlert dateNow alert w
  = (Normal tt,
     {| state := updateSlot_inventoryAlerts
                   (cons (alertAt dateNow (clockReads w) alert)) (state w);
        clockReads := S (S (clockReads w));
        trace := trace w ++ [EvSet SInventoryAlerts] |}).
Proof. reflexivity. Qed.

(** ** [updateInventory] *)

Section UpdateInventory.

Variable supabase : option Client.
Variable dateNow : nat → Z.
Variables (render : AppState) (partNumber : string) (d : JsNumber).
Variables (reason roId : string).

Local Abbreviation call :=
  (updateInventory supabase dateNow render partNumber d reason roId).

Lemma updateInventory_missing (w : World) :
  findPart partNumber (masterInventory render) = None →
  call w = (Normal tt, w).
Proof.
  unfold updateInventory, findPart. by intros ->.
Qed.

Lemma updateInventory_state (w : World) (p : Part.t) :
  findPart partNumber (masterInventory render) = Some p →
  state (exec call w)
  = let q := jsAdd (Part.quantityOnHand p) d in
    let s := updateSlot_masterInventory (map (setQuantity partNumber q))
               (state w) in
    if jsLe q (Part.reorderPoint p)
    then updateSlot_inventoryAlerts
           (cons (alertAt dateNow (clockReads w)
                    (lowStock p partNumber reason roId))) s
    else s.
Proof.
  unfold findPart. intros Hfind. unfold_handlers. rewrite Hfind.
  simpl.
  destruct (jsLe (jsAdd (Part.quantityOnHand p) d) (Part.reorderPoint p));
    destruct (isDemoMode render); destruct supabase as [client|];
    simpl; try reflexivity;
    match goal with |- context [client ?c] => destruct (client c) end;
    reflexivity.
Qed.

Lemma updateInventory_trace (w : World) (p : Part.t) :
  findPart partNumber (masterInventory render) = Some p →
  trace (exec call w)
  = let q := jsAdd (Part.quantityOnHand p) d in
    trace w
    ++ [EvSet SMasterInventory]
    ++ (if jsLe q (Part.reorderPoint p) then [EvSet SInventoryAlerts]
        else [])
    ++ match negb (isDemoMode render), supabase with
       | true, Some _ =>
           [EvRemote (Update "master_inventory"
                        {[ "quantity_on_hand" := JNum q ]}
                        "part_number" (JStr partNumber))]
       | _, _ => []
       end.
Proof.
  unfold findPart. intros Hfind. unfold_handlers. rewrite Hfind.
  simpl.
  destruct (jsLe (jsAdd (Part.quantityOnHand p) d) (Part.reorderPoint p));
    destruct (isDemoMode render); destruct supabase as [client|];
    simpl; rewrite ?app_nil_r, <- ?app_assoc; try reflexivity;
    match goal with |- context [client ?c] => destruct (client c) end;
    simpl; rewrite <- ?app_assoc; reflexivity.
Qed.

End UpdateInventory.

(** For the part [p] the handler's render holds under [partNumber], also the
    record the pending state holds under it, [updateInventory] leaves the
    part with the sum of its quantity and the delta, as numbers add. *)
Lemma updateInventory_stores_sum (supabase : option Client)
    (dateNow : nat → Z) (render : AppState) (w : World)
    (partNumber : string) (d : JsNumber) (reason roId : string) (p : Part.t) :
  findPart partNumber (masterInventory render) = Some p →
  findPart partNumber (masterInventory (state w)) = Some p →
  findPart partNumber
    (masterInventory
       (state (exec (updateInventory supabase dateNow render partNumber d
                       reason roId) w)))
  = Some (Part.withQuantityOnHand p (jsAdd (Part.quantityOnHand p) d)).
Proof.
  intros Hrender Hfind.
  rewrite (updateInventory_state _ _ _ _ _ _ _ _ p Hrender).
  cbv zeta.
  destruct (jsLe _ _); simpl; by apply findPart_setQuantity.
Qed.

(** C1, as amended: for the part [p] found under [partNumber] in the
    inventory, the one the handler's render holds for that number too, with
    an integer quantity [a] on hand, and for an integer delta [b] whose sum
    with [a] is at most 2^53 in magnitude, [updateInventory] leaves that
    part with the quantity [a + b], whatever its sign; nothing clamps
    it. *)
Theorem updateInventory_adds_delta (supabase : option Client)
    (dateNow : nat → Z) (render : AppState) (w : World)
    (partNumber : string) (a b : Z) (reason roId : string) (p : Part.t) :
  findPart partNumber (masterInventory render) = Some p →
  findPart partNumber (masterInventory (state w)) = Some p →
  Part.quantityOnHand p = Finite a →
  (Z.abs (a + b) ≤ 2 ^ 53)%Z →
  ∃ p',
    findPart partNumber
      (masterInventory
         (state (exec (updateInventory supabase dateNow render partNumber
                         (Finite b) reason roId) w))) = Some p'
    ∧ p' = Part.withQuantityOnHand p (Finite (a + b))
    ∧ Part.quantityOnHand p' = Finite (a + b).
Proof.
  intros Hrender Hfind Hq Hsafe.
  exists (Part.withQuantityOnHand p (Finite (a + b))).
  split; [|done].
  rewrite (updateInventory_stores_sum _ _ _ _ _ _ _ _ p Hrender Hfind).
  by rewrite Hq, jsAdd_exact.
Qed.

(** For the part [p] the handler's render holds under [partNumber], also the
    record the pending state holds under it, an alert is raised exactly when
    the quantity the part holds after the call is at or below its reorder
    point; otherwise the alert log is left as it was.  The raised alert
    names the part, the order and the reason. *)
Lemma updateInventory_alert_decision (supabase : option Client)
    (dateNow : nat → Z) (render : AppState) (w : World)
    (partNumber : string) (d : JsNumber) (reason roId : string) (p : Part.t) :
  findPart partNumber (masterInventory render) = Some p →
  findPart partNumber (masterInventory (state w)) = Some p →
  let w' := exec (updateInventory supabase dateNow render partNumber d
                    reason roId) w in
  ∃ p',
    findPart partNumber (masterInventory (state w')) = Some p'
    ∧ (alertRaised w w'
       ↔ jsLe (Part.quantityOnHand p') (Part.reorderPoint p') = true)
    ∧ (jsLe (Part.quantityOnHand p') (Part.reorderPoint p') = true →
       inventoryAlerts (state w')
       = alertAt dateNow (clockReads w) (lowStock p partNumber reason roId)
         :: inventoryAlerts (state w))
    ∧ (jsLe (Part.quantityOnHand p') (Part.reorderPoint p') = false →
       inventoryAlerts (state w') = inventoryAlerts (state w)).
Proof.
  intros Hrender Hfind w'.
  exists (Part.withQuantityOnHand p (jsAdd (Part.quantityOnHand p) d)).
  assert (Hst := updateInventory_state supabase dateNow render partNumber d
                   reason roId w p Hrender).
  cbv zeta in Hst.
  fold w' in Hst. unfold alertRaised. rewrite Hst. simpl.
  destruct (jsLe (jsAdd (Part.quantityOnHand p) d) (Part.reorderPoint p));
    simpl.
  - split; [by apply findPart_setQuantity|].
    split; [split; [done|eauto]|]. by split.
  - split; [by apply findPart_setQuantity|].
    split; [|by split].
    split; [|done]. intros [x Hx]. symmetry in Hx.
    by apply cons_neq_self in Hx.
Qed.

(** C2, at the failing input: ENG-001 with 10 on hand and reorder point 5,
    four units consumed twice through the handler of one render.  The first
    call leaves 6.  The second reads the 10 of its render again: it stores 6
    and raises no alert, though the quantity before it, 6, plus the delta is
    2, at or below the reorder point. *)
Theorem updateInventory_stale_handler_misses_alert :
  let render := Scenario.session true 10 in
  let w := Scenario.world true 10 in
  let w1 := exec (updateInventory None Scenario.ticking render "ENG-001"
                    (Finite (-4)) "install" "RO-10") w in
  let w2 := exec (updateInventory None Scenario.ticking render "ENG-001"
                    (Finite (-4)) "install" "RO-11") w1 in
  findPart "ENG-001" (masterInventory (state w1)) = Some (Scenario.eng001 6)
  ∧ jsLe (jsAdd (Part.quantityOnHand (Scenario.eng001 6)) (Finite (-4)))
      (Part.reorderPoint (Scenario.eng001 6)) = true
  ∧ findPart "ENG-001" (masterInventory (state w2)) = Some (Scenario.eng001 6)
  ∧ inventoryAlerts (state w2) = [].
Proof.
  intros render w w1 w2. by vm_compute.
Qed.

(** C3, as amended: for a part number that [find] does not locate in the
    inventory the handler sees, [updateInventory] does nothing at all and
    completes normally: the world (every collection, the alert log, the
    trace of setter and remote calls) is the one it started from, and
    nothing is signalled to the caller. *)
Theorem updateInventory_unknown_part_noop (supabase : option Client)
    (dateNow : nat → Z) (render : AppState) (w : World)
    (partNumber : string) (d : JsNumber) (reason roId : string) :
  findPart partNumber (masterInventory render) = None →
  let run := updateInventory supabase dateNow render partNumber d reason roId in
  exec run w = w
  ∧ remoteCalls (trace (exec run w)) = remoteCalls (trace w)
  ∧ completion run w = Normal tt
  ∧ ¬ signalsError (completion run w).
Proof.
  intros Hnone run. unfold exec, completion, run.
  rewrite updateInventory_missing by done. simpl.
  repeat split; try done. by intros [e He].
Qed.

(** C10: [updateInventory] keeps the inventory's length and order; a part
    under another part number is left as it is; a part under the given
    number keeps its [partNumber], [description], [reorderPoint] and
    remaining properties; the repair orders and the mode, loading and error
    variables are not written. *)
Theorem updateInventory_frame (supabase : option Client)
    (dateNow : nat → Z) (render : AppState) (w : World)
    (partNumber : string) (d : JsNumber) (reason roId : string) :
  let s := state w in
  let s' := state (exec (updateInventory supabase dateNow render partNumber d
                           reason roId) w) in
  length (masterInventory s') = length (masterInventory s)
  ∧ (∀ (i : nat) (q : Part.t), masterInventory s !! i = Some q →
       ∃ q', masterInventory s' !! i = Some q'
         ∧ Part.partNumber q' = Part.partNumber q
         ∧ Part.description q' = Part.description q
         ∧ Part.reorderPoint q' = Part.reorderPoint q
         ∧ Part.fields q' = Part.fields q
         ∧ (Part.partNumber q ≠ partNumber → q' = q))
  ∧ repairOrders s' = repairOrders s
  ∧ isDemoMode s' = isDemoMode s
  ∧ isLoading s' = isLoading s
  ∧ error s' = error s.
Proof.
  intros s s'.
  destruct (findPart partNumber (masterInventory render)) as [p|] eqn:Hfind.
  - assert (Hst := updateInventory_state supabase dateNow render partNumber d
                     reason roId w p Hfind).
    cbv zeta in Hst. fold s' in Hst.
    assert (Hinv : masterInventory s'
                   = map (setQuantity partNumber (jsAdd (Part.quantityOnHand p) d))
                       (masterInventory s)).
    { rewrite Hst. by destruct (jsLe _ _). }
    split; [by rewrite Hinv, length_map|].
    split.
    { intros i q Hq. rewrite Hinv, lookup_setQuantity. fold s. rewrite Hq.
      simpl. eexists; split; [done|]. unfold setQuantity.
      destruct (String.eqb_spec (Part.partNumber q) partNumber); by simpl. }
    rewrite Hst. by destruct (jsLe _ _).
  - assert (Hw : exec (updateInventory supabase dateNow render partNumber d
                         reason roId) w = w).
    { unfold exec. by rewrite updateInventory_missing. }
    unfold s'. rewrite Hw. fold s.
    repeat split; try done. intros i q Hq. exists q. by repeat split.
Qed.

(** ** [updateRO] and [addRO] *)

Section Orders.

Variable toSnake : RepairOrder.t → Row.
Variable supabase : option Client.
Variables (render : AppState) (order : RepairOrder.t).

Lemma updateRO_state (w : World) :
  state (exec (updateRO toSnake supabase render order) w)
  = updateSlot_repairOrders (map (replaceOrder order)) (state w).
Proof.
  unfold_handlers. destruct (isDemoMode render), supabase as [client|];
    simpl; try reflexivity.
  by destruct (client _).
Qed.

Lemma updateRO_trace (w : World) :
  trace (exec (updateRO toSnake supabase render order) w)
  = trace w
    ++ [EvSet SRepairOrders]
    ++ match negb (isDemoMode render), supabase with
       | true, Some _ =>
           [EvRemote (Update "repair_orders" (toSnake order)
                        "id" (JStr (RepairOrder.id order)))]
       | _, _ => []
       end.
Proof.
  unfold_handlers. destruct (isDemoMode render), supabase as [client|];
    simpl; try reflexivity.
  destruct (client _); simpl; by rewrite <- app_assoc.
Qed.

Lemma addRO_state (w : World) :
  state (exec (addRO toSnake supabase render order) w)
  = updateSlot_repairOrders (λ prev, prev ++ [order]) (state w).
Proof.
  unfold_handlers. destruct (isDemoMode render), supabase as [client|];
    simpl; try reflexivity.
  by destruct (client _).
Qed.

Lemma addRO_trace (w : World) :
  trace (exec (addRO toSnake supabase render order) w)
  = trace w
    ++ [EvSet SRepairOrders]
    ++ match negb (isDemoMode render), supabase with
       | true, Some _ =>
           [EvRemote (Insert "repair_orders" [toSnake order])]
       | _, _ => []
       end.
Proof.
  unfold_handlers. destruct (isDemoMode render), supabase as [client|];
    simpl; try reflexivity.
  destruct (client _); simpl; by rewrite <- app_assoc.
Qed.

End Orders.

Lemma map_replaceOrder_absent (order : RepairOrder.t)
    (l : list RepairOrder.t) :
  (∀ ro, ro ∈ l → RepairOrder.id ro ≠ RepairOrder.id order) →
  map (replaceOrder order) l = l.
Proof.
  induction l as [|x l IH]; intros Habs; simpl; [done|].
  rewrite IH by (intros ro Hro; apply Habs; by right).
  unfold replaceOrder.
  destruct (String.eqb_spec (RepairOrder.id x) (RepairOrder.id order))
    as [Heq|]; [|done].
  exfalso. apply (Habs x); [by left|done].
Qed.

(** C4: [updateRO] keeps the number and order of the records; at every
    position holding a record with the id of the given record it puts the
    given record itself, so a property the given record lacks is absent
    afterwards even if the old record had it; every other record stays; and
    when no record has that id the collection is unchanged. *)
Theorem updateRO_replaces (toSnake : RepairOrder.t → Row)
    (supabase : option Client) (render : AppState) (w : World)
    (order : RepairOrder.t) :
  let l := repairOrders (state w) in
  let l' := repairOrders
              (state (exec (updateRO toSnake supabase render order) w)) in
  length l' = length l
  ∧ (∀ (i : nat) (ro : RepairOrder.t),
       l !! i = Some ro → RepairOrder.id ro = RepairOrder.id order →
       l' !! i = Some order)
  ∧ (∀ (i : nat) (ro : RepairOrder.t) (field : string),
       l !! i = Some ro → RepairOrder.id ro = RepairOrder.id order →
       RepairOrder.fields order !! field = None →
       ∃ ro', l' !! i = Some ro' ∧ RepairOrder.fields ro' !! field = None)
  ∧ (∀ (i : nat) (ro : RepairOrder.t),
       l !! i = Some ro → RepairOrder.id ro ≠ RepairOrder.id order →
       l' !! i = Some ro)
  ∧ ((∀ ro, ro ∈ l → RepairOrder.id ro ≠ RepairOrder.id order) → l' = l).
Proof.
  intros l l'.
  assert (Hl' : l' = map (replaceOrder order) l).
  { unfold l'. by rewrite updateRO_state. }
  assert (Hsame : ∀ (i : nat) (ro : RepairOrder.t),
            l !! i = Some ro → RepairOrder.id ro = RepairOrder.id order →
            l' !! i = Some order).
  { intros i ro Hi Hid. rewrite Hl', list_lookup_fmap, Hi. simpl.
    unfold replaceOrder. rewrite Hid. by rewrite String.eqb_refl. }
  split; [by rewrite Hl', length_map|].
  split; [exact Hsame|].
  split; [intros i ro field Hi Hid Hf; exists order; eauto|].
  split.
  - intros i ro Hi Hid. rewrite Hl', list_lookup_fmap, Hi. simpl.
    unfold replaceOrder.
    by destruct (String.eqb_spec (RepairOrder.id ro) (RepairOrder.id order)).
  - intros Habs. rewrite Hl'. by apply map_replaceOrder_absent.
Qed.

(** C5: a handler created by a render in simulated mode issues no request;
    a handler created by a render in connected mode (not simulated, client
    present) issues exactly one: [addRO] an insert of the translated record
    into [repair_orders], [updateRO] an update of [repair_orders] with the
    translated record keyed by [id], and [updateInventory] of a part it
    finds an update of [master_inventory] carrying [quantity_on_hand] keyed
    by [part_number]. *)
Theorem mode_isolation (toSnake : RepairOrder.t → Row) (dateNow : nat → Z)
    (render : AppState) (w : World) (order : RepairOrder.t)
    (partNumber : string) (d : JsNumber) (reason roId : string) :
  (isDemoMode render = true →
   ∀ supabase : option Client,
     remoteCalls (trace (exec (addRO toSnake supabase render order) w))
     = remoteCalls (trace w)
     ∧ remoteCalls (trace (exec (updateRO toSnake supabase render order) w))
       = remoteCalls (trace w)
     ∧ remoteCalls
         (trace (exec (updateInventory supabase dateNow render partNumber d
                         reason roId) w))
       = remoteCalls (trace w))
  ∧ (isDemoMode render = false →
     ∀ client : Client,
       remoteCalls (trace (exec (addRO toSnake (Some client) render order) w))
       = remoteCalls (trace w) ++ [Insert "repair_orders" [toSnake order]]
       ∧ remoteCalls
           (trace (exec (updateRO toSnake (Some client) render order) w))
         = remoteCalls (trace w)
           ++ [Update "repair_orders" (toSnake order)
                 "id" (JStr (RepairOrder.id order))]
       ∧ ∀ p : Part.t,
           findPart partNumber (masterInventory render) = Some p →
           remoteCalls
             (trace (exec (updateInventory (Some client) dateNow render
                             partNumber d reason roId) w))
           = remoteCalls (trace w)
             ++ [Update "master_inventory"
                   {[ "quantity_on_hand"
                      := JNum (jsAdd (Part.quantityOnHand p) d) ]}
                   "part_number" (JStr partNumber)]).
Proof.
  split.
  - intros Hdemo supabase.
    rewrite addRO_trace, updateRO_trace, Hdemo. simpl.
    rewrite !remoteCalls_app. simpl. rewrite !app_nil_r.
    split; [done|]. split; [done|].
    destruct (findPart partNumber (masterInventory render)) as [p|] eqn:Hfind.
    + rewrite (updateInventory_trace _ _ _ _ _ _ _ _ p Hfind), Hdemo.
      cbv zeta. simpl. rewrite !remoteCalls_app. simpl.
      destruct (jsLe _ _); simpl; by rewrite app_nil_r.
    + unfold exec. by rewrite updateInventory_missing.
  - intros Hconn client.
    rewrite addRO_trace, updateRO_trace, Hconn. simpl.
    rewrite !remoteCalls_app. simpl.
    split; [done|]. split; [done|].
    intros p Hfind.
    rewrite (updateInventory_trace _ _ _ _ _ _ _ _ p Hfind), Hconn.
    cbv zeta. simpl. rewrite !remoteCalls_app. simpl.
    destruct (jsLe _ _); simpl; by rewrite ?remoteCalls_app.
Qed.

(** ** Completion of the handlers in connected mode *)

Section Completions.

Variable toSnake : RepairOrder.t → Row.
Variable dateNow : nat → Z.
Variable client : Client.
Variable render : AppState.
Hypothesis connected : isDemoMode render = false.

Lemma addRO_completion (order : RepairOrder.t) (w : World) :
  completion (addRO toSnake (Some client) render order) w
  = match client (Insert "repair_orders" [toSnake order]) with
    | Resolved _ _ => Normal tt
    | Rejected e => Thrown e
    end.
Proof. unfold_handlers. rewrite connected. simpl. by destruct (client _). Qed.

Lemma updateRO_completion (order : RepairOrder.t) (w : World) :
  completion (updateRO toSnake (Some client) render order) w
  = match client (Update "repair_orders" (toSnake order)
                    "id" (JStr (RepairOrder.id order))) with
    | Resolved _ _ => Normal tt
    | Rejected e => Thrown e
    end.
Proof. unfold_handlers. rewrite connected. simpl. by destruct (client _). Qed.

Lemma updateInventory_completion (partNumber : string) (d : JsNumber)
    (reason roId : string) (p : Part.t) (w : World) :
  findPart partNumber (masterInventory render) = Some p →
  completion (updateInventory (Some client) dateNow render partNumber d
                reason roId) w
  = match client (Update "master_inventory"
                    {[ "quantity_on_hand"
                       := JNum (jsAdd (Part.quantityOnHand p) d) ]}
                    "part_number" (JStr partNumber)) with
    | Resolved _ _ => Normal tt
    | Rejected e => Thrown e
    end.
Proof.
  unfold findPart. intros Hfind. unfold_handlers.
  rewrite Hfind, connected. simpl.
  destruct (jsLe _ _); simpl; by destruct (client _).
Qed.

End Completions.

(** C6: in connected mode, whatever the client replies to the request
    (success, an error object or a rejection), each handler has applied its
    local change: the state after the call is the state before with the
    change applied, the setter events come before the one request in the
    trace, there is exactly one request, and a rejection only ends the call
    as a rejected promise.  For [updateInventory] this is said of a part its
    render holds. *)
Theorem optimistic_update_no_rollback (toSnake : RepairOrder.t → Row)
    (dateNow : nat → Z) (client : Client) (render : AppState) (w : World)
    (order : RepairOrder.t) (partNumber : string) (d : JsNumber)
    (reason roId : string) :
  isDemoMode render = false →
  let add := addRO toSnake (Some client) render order in
  let upd := updateRO toSnake (Some client) render order in
  let inv := updateInventory (Some client) dateNow render partNumber d
               reason roId in
  let insertCall := Insert "repair_orders" [toSnake order] in
  let updateCall := Update "repair_orders" (toSnake order)
                      "id" (JStr (RepairOrder.id order)) in
  (state (exec add w)
   = updateSlot_repairOrders (λ prev, prev ++ [order]) (state w)
   ∧ trace (exec add w)
     = trace w ++ [EvSet SRepairOrders; EvRemote insertCall]
   ∧ (∀ e, client insertCall = Rejected e → completion add w = Thrown e)
   ∧ (∀ data err, client insertCall = Resolved data err →
      completion add w = Normal tt))
  ∧ (state (exec upd w)
     = updateSlot_repairOrders (map (replaceOrder order)) (state w)
     ∧ trace (exec upd w)
       = trace w ++ [EvSet SRepairOrders; EvRemote updateCall]
     ∧ (∀ e, client updateCall = Rejected e → completion upd w = Thrown e)
     ∧ (∀ data err, client updateCall = Resolved data err →
        completion upd w = Normal tt))
  ∧ (∀ p : Part.t,
       findPart partNumber (masterInventory render) = Some p →
       let q := jsAdd (Part.quantityOnHand p) d in
       let inventoryCall := Update "master_inventory"
                              {[ "quantity_on_hand" := JNum q ]}
                              "part_number" (JStr partNumber) in
       state (exec inv w)
       = (let s := updateSlot_masterInventory
                     (map (setQuantity partNumber q)) (state w) in
          if jsLe q (Part.reorderPoint p)
          then updateSlot_inventoryAlerts
                 (cons (alertAt dateNow (clockReads w)
                          (lowStock p partNumber reason roId))) s
          else s)
       ∧ trace (exec inv w)
         = trace w
           ++ [EvSet SMasterInventory]
           ++ (if jsLe q (Part.reorderPoint p) then [EvSet SInventoryAlerts]
               else [])
           ++ [EvRemote inventoryCall]
       ∧ (∀ e, client inventoryCall = Rejected e →
          completion inv w = Thrown e)
       ∧ (∀ data err, client inventoryCall = Resolved data err →
          completion inv w = Normal tt)).
Proof.
  intros Hconn add upd inv insertCall updateCall.
  split; [|split].
  - unfold add. rewrite addRO_state, addRO_trace, addRO_completion by done.
    rewrite Hconn. simpl. fold insertCall.
    repeat split; try done; intros;
      match goal with H : client _ = _ |- _ => by rewrite H end.
  - unfold upd.
    rewrite updateRO_state, updateRO_trace, updateRO_completion by done.
    rewrite Hconn. simpl. fold updateCall.
    repeat split; try done; intros;
      match goal with H : client _ = _ |- _ => by rewrite H end.
  - intros p Hfind q inventoryCall. unfold inv.
    rewrite (updateInventory_state _ _ _ _ _ _ _ _ p Hfind),
      (updateInventory_trace _ _ _ _ _ _ _ _ p Hfind),
      (updateInventory_completion _ _ _ Hconn _ _ _ _ p _ Hfind).
    rewrite Hconn. cbv zeta. simpl. fold q. fold inventoryCall.
    repeat split; try done; intros;
      match goal with H : client _ = _ |- _ => by rewrite H end.
Qed.

(** ** Bootstrap *)

Ltac unfold_bootstrap :=
  unfold exec, completion, onClick, reload, runEffect, effect_isDemoMode,
    fetchInitialData, tryCatchFinally, readMessage;
  unfold_handlers.

Section Bootstrap.

Variable toCamelOrders : list Row → list RepairOrder.t.
Variable toCamelParts : list Row → list Part.t.
Variable isSupabaseConfigured : bool.
Variable supabase : option Client.
Variable typeErrorMessage : string.

Local Abbreviation boot :=
  (runEffect toCamelOrders toCamelParts isSupabaseConfigured supabase
     typeErrorMessage).
Local Abbreviation click :=
  (onClick toCamelOrders toCamelParts isSupabaseConfigured supabase
     typeErrorMessage).


Lemma boot_simulated (w : World) :
  isDemoMode (state w) = true →
  boot w
  = (Normal tt,
     {| state := updateSlot_error None
                   (updateSlot_isLoading false (state w));
        clockReads := clockReads w;
        trace := trace w ++ [EvSet SIsLoading; EvSet SError] |}).
Proof.
  intros Hmode. unfold_bootstrap. rewrite Hmode. simpl.
  by rewrite <- !app_assoc.
Qed.


End Bootstrap.


(** ** The alert log *)

Lemma addInventoryAlert_prepends (dateNow : nat → Z) (alert : AlertInput.t)
    (w : World) :
  let w' := exec (addInventoryAlert dateNow alert) w in
  inventoryAlerts (state w')
  = alertAt dateNow (clockReads w) alert :: inventoryAlerts (state w)
  ∧ repairOrders (state w') = repairOrders (state w)
  ∧ masterInventory (state w') = masterInventory (state w)
  ∧ clockReads w' = S (S (clockReads w)).
Proof. done. Qed.

(** Two alerts carry the same id exactly when the clock readings their ids
    were built from are the same. *)
Lemma alertAt_id_eq_iff (dateNow : nat → Z) (n m : nat)
    (a b : AlertInput.t) :
  InventoryAlert.id (alertAt dateNow n a)
  = InventoryAlert.id (alertAt dateNow m b)
  ↔ dateNow n = dateNow m.
Proof.
  simpl. split.
  - intros H. apply (inj (String.app _)) in H. by apply (inj pretty) in H.
  - by intros ->.
Qed.

(** C8, at the failing input: a handler of one render consumes, for order
    RO-10, one ENG-001 (5 on hand, reorder point 5) and one PROP-014 (2 on
    hand, reorder point 1) within one millisecond.  Both calls raise an
    alert, the log holds the two newest-first, they are different alerts,
    and they carry the same id. *)
Theorem alerts_same_millisecond_share_id :
  let w0 := Scenario.world true 5 in
  let w1 := exec (updateInventory None Scenario.frozen (state w0)
                    "ENG-001" (Finite (-1)) "install" "RO-10") w0 in
  let w2 := exec (updateInventory None Scenario.frozen (state w0)
                    "PROP-014" (Finite (-1)) "install" "RO-10") w1 in
  ∃ a1 a2,
    inventoryAlerts (state w2) = [a2; a1]
    ∧ InventoryAlert.partNumber a1 = "ENG-001"
    ∧ InventoryAlert.partNumber a2 = "PROP-014"
    ∧ a1 ≠ a2
    ∧ InventoryAlert.id a1 = "alert-1700000000000"
    ∧ InventoryAlert.id a2 = "alert-1700000000000"
    ∧ InventoryAlert.id a1 = InventoryAlert.id a2.
Proof.
  intros w0 w1 w2. eexists _, _.
  split; [vm_compute; reflexivity|].
  repeat split; try (vm_compute; reflexivity).
  intros [=].
Qed.

(** C9: two [updateInventory] calls for the same part, order and reason,
    each finding the part in the inventory its handler sees and each
    leaving the quantity it computes at or below the reorder point, put two
    entries on top of the alert log, the second call's above the first's;
    the log is not searched for an alert of the same part, order or
    reason.  The two entries carry different ids when the clock readings
    they were built from differ. *)
Theorem updateInventory_twice_two_alerts (supabase : option Client)
    (dateNow : nat → Z) (render1 render2 : AppState) (w : World)
    (partNumber : string) (d : JsNumber) (reason roId : string) (p1 p2 : Part.t) :
  findPart partNumber (masterInventory render1) = Some p1 →
  jsLe (jsAdd (Part.quantityOnHand p1) d) (Part.reorderPoint p1) = true →
  findPart partNumber (masterInventory render2) = Some p2 →
  jsLe (jsAdd (Part.quantityOnHand p2) d) (Part.reorderPoint p2) = true →
  let w1 := exec (updateInventory supabase dateNow render1 partNumber d
                    reason roId) w in
  let w2 := exec (updateInventory supabase dateNow render2 partNumber d
                    reason roId) w1 in
  let a1 := alertAt dateNow (clockReads w)
              (lowStock p1 partNumber reason roId) in
  let a2 := alertAt dateNow (S (S (clockReads w)))
              (lowStock p2 partNumber reason roId) in
  inventoryAlerts (state w2) = a2 :: a1 :: inventoryAlerts (state w)
  ∧ length (inventoryAlerts (state w2))
    = S (S (length (inventoryAlerts (state w))))
  ∧ (dateNow (clockReads w) ≠ dateNow (S (S (clockReads w))) →
     InventoryAlert.id a1 ≠ InventoryAlert.id a2).
Proof.
  intros Hf1 Hq1 Hf2 Hq2 w1 w2 a1 a2.
  assert (Hclock : clockReads w1 = S (S (clockReads w))).
  { unfold w1. unfold findPart in Hf1. unfold_handlers. rewrite Hf1. simpl.
    rewrite Hq1. simpl.
    destruct (isDemoMode render1), supabase as [client|]; simpl; try done;
      by destruct (client _). }
  assert (H1 : inventoryAlerts (state w1) = a1 :: inventoryAlerts (state w)).
  { unfold w1. rewrite (updateInventory_state _ _ _ _ _ _ _ _ p1 Hf1).
    cbv zeta. by rewrite Hq1. }
  assert (H2 : inventoryAlerts (state w2) = a2 :: inventoryAlerts (state w1)).
  { unfold w2. rewrite (updateInventory_state _ _ _ _ _ _ _ _ p2 Hf2).
    cbv zeta. rewrite Hq2. simpl.
    by rewrite Hclock. }
  rewrite H2, H1. split; [done|]. split; [done|].
  intros Hne Hid. by apply alertAt_id_eq_iff in Hid.
Qed.

(** ** The claims at concrete inputs *)

(** C3, as stated, fails: with UNKNOWN-PART absent from the inventory the
    call completes exactly as a call for a part that is present does, with
    a normal void completion; nothing tells the caller the part was not
    found. *)
Lemma updateInventory_unknown_part_not_signalled :
  let render := Scenario.session false 10 in
  let w := Scenario.world false 10 in
  let unknown := updateInventory (Some Scenario.accepting) Scenario.ticking
                   render "UNKNOWN-PART" (Finite (-1)) "install" "RO-10" in
  let known := updateInventory (Some Scenario.accepting) Scenario.ticking
                 render "ENG-001" (Finite (-2)) "install" "RO-10" in
  findPart "UNKNOWN-PART" (masterInventory render) = None
  ∧ findPart "ENG-001" (masterInventory render) = Some (Scenario.eng001 10)
  ∧ completion unknown w = Normal tt
  ∧ completion unknown w = completion known w
  ∧ ¬ (exec unknown w = w ∧ signalsError (completion unknown w)).
Proof.
  intros render w unknown known.
  split; [reflexivity|]. split; [reflexivity|].
  split; [reflexivity|]. split; [reflexivity|].
  intros [_ [e He]]. discriminate He.
Qed.

(** C1, as stated, fails: with 2^53 = 9007199254740992 units of ENG-001 on
    hand, one more unit leaves 9007199254740992 on hand, not
    9007199254740993: the sum of the two numbers is the double nearest to
    it. *)
Lemma updateInventory_sum_rounds_beyond_2_53 :
  let w := Scenario.world true 9007199254740992 in
  let w' := exec (updateInventory None Scenario.ticking (state w) "ENG-001"
                    (Finite 1) "restock" "RO-10") w in
  findPart "ENG-001" (masterInventory (state w))
  = Some (Scenario.eng001 9007199254740992)
  ∧ findPart "ENG-001" (masterInventory (state w'))
    = Some (Scenario.eng001 9007199254740992)
  ∧ findPart "ENG-001" (masterInventory (state w'))
    ≠ Some (Scenario.eng001 (9007199254740992 + 1)).
Proof.
  intros w w'.
  assert (Hafter : findPart "ENG-001" (masterInventory (state w'))
                   = Some (Scenario.eng001 9007199254740992))
    by (by vm_compute).
  split; [reflexivity|]. split; [exact Hafter|].
  rewrite Hafter. intros [=].
Qed.

(** C1, as amended, at ENG-001 with 1 on hand and five units consumed: -4
    on hand. *)
Lemma updateInventory_adds_delta_witness :
  findPart "ENG-001" (masterInventory (Scenario.session true 1))
  = Some (Scenario.eng001 1)
  ∧ findPart "ENG-001" (masterInventory (state (Scenario.world true 1)))
    = Some (Scenario.eng001 1)
  ∧ Part.quantityOnHand (Scenario.eng001 1) = Finite 1
  ∧ (Z.abs (1 + -5) ≤ 2 ^ 53)%Z
  ∧ ∃ p',
      findPart "ENG-001"
        (masterInventory
           (state (exec (updateInventory None Scenario.ticking
                           (Scenario.session true 1) "ENG-001" (Finite (-5))
                           "install" "RO-10") (Scenario.world true 1))))
      = Some p'
      ∧ p' = Part.withQuantityOnHand (Scenario.eng001 1) (Finite (-4))
      ∧ Part.quantityOnHand p' = Finite (-4).
Proof.
  split; [reflexivity|]. split; [reflexivity|]. split; [reflexivity|].
  split; [by vm_compute|].
  apply (updateInventory_adds_delta None Scenario.ticking
           (Scenario.session true 1) (Scenario.world true 1) "ENG-001" 1 (-5)
           "install" "RO-10" (Scenario.eng001 1));
    [reflexivity | reflexivity | reflexivity | by vm_compute].
Defined.

(** ENG-001 with 6 on hand and reorder point 5, one unit consumed through
    the handler of the current render: 5 on hand, and an alert. *)
Example updateInventory_alert_at_reorder_point :
  let w := Scenario.world true 6 in
  let w' := exec (updateInventory None Scenario.ticking (state w) "ENG-001"
                    (Finite (-1)) "install" "RO-10") w in
  findPart "ENG-001" (masterInventory (state w')) = Some (Scenario.eng001 5)
  ∧ inventoryAlerts (state w')
    = [alertAt Scenario.ticking 0
         (lowStock (Scenario.eng001 6) "ENG-001" "install" "RO-10")].
Proof. intros w w'. by vm_compute. Qed.

(** C3, as amended, at scenario 3 in connected mode. *)
Lemma updateInventory_unknown_part_noop_witness :
  findPart "UNKNOWN-PART" (masterInventory (Scenario.session false 10)) = None
  ∧ (let run := updateInventory (Some Scenario.accepting) Scenario.ticking
                  (Scenario.session false 10) "UNKNOWN-PART" (Finite (-1))
                  "install" "RO-10" in
     let w := Scenario.world false 10 in
     exec run w = w
     ∧ remoteCalls (trace (exec run w)) = remoteCalls (trace w)
     ∧ completion run w = Normal tt
     ∧ ¬ signalsError (completion run w)).
Proof.
  split; [reflexivity|].
  apply (updateInventory_unknown_part_noop (Some Scenario.accepting)
           Scenario.ticking (Scenario.session false 10)
           (Scenario.world false 10) "UNKNOWN-PART" (Finite (-1)) "install" "RO-10").
  reflexivity.
Defined.

(** C4 at RO-1 replaced by a record with status AUTHORIZED. *)
Lemma updateRO_replaces_witness :
  let w := Scenario.world true 10 in
  let order := Scenario.ro1 "AUTHORIZED" in
  let l := repairOrders (state w) in
  let l' := repairOrders
              (state (exec (updateRO Scenario.toSnake None (state w) order)
                        w)) in
  l' = [Scenario.ro1 "AUTHORIZED"; Scenario.ro2]
  ∧ length l' = length l
  ∧ (∀ (i : nat) (ro : RepairOrder.t),
       l !! i = Some ro → RepairOrder.id ro = RepairOrder.id order →
       l' !! i = Some order).
Proof.
  split; [reflexivity|].
  destruct (updateRO_replaces Scenario.toSnake None
              (state (Scenario.world true 10)) (Scenario.world true 10)
              (Scenario.ro1 "AUTHORIZED")) as (Hlen & Hsame & _).
  split; [exact Hlen | exact Hsame].
Defined.

(** C6 with a client that rejects every request. *)
Lemma optimistic_update_no_rollback_witness :
  let client := Scenario.rejecting "network down" in
  let e := Some {| JsError.message := Some "network down" |} in
  let render := Scenario.session false 5 in
  let w := Scenario.world false 5 in
  let order := Scenario.ro1 "AUTHORIZED" in
  let add := addRO Scenario.toSnake (Some client) render order in
  let upd := updateRO Scenario.toSnake (Some client) render order in
  let inv := updateInventory (Some client) Scenario.ticking render
               "ENG-001" (Finite (-1)) "install" "RO-10" in
  isDemoMode render = false
  ∧ findPart "ENG-001" (masterInventory render) = Some (Scenario.eng001 5)
  ∧ (state (exec add w)
     = updateSlot_repairOrders (λ prev, prev ++ [order]) (state w)
     ∧ completion add w = Thrown e)
  ∧ (state (exec upd w)
     = updateSlot_repairOrders (map (replaceOrder order)) (state w)
     ∧ completion upd w = Thrown e)
  ∧ (trace (exec inv w)
     = [EvSet SMasterInventory; EvSet SInventoryAlerts;
        EvRemote (Update "master_inventory"
                    {[ "quantity_on_hand" := JNum (Finite 4) ]}
                    "part_number" (JStr "ENG-001"))]
     ∧ completion inv w = Thrown e).
Proof.
  intros client e render w order add upd inv.
  split; [reflexivity|]. split; [reflexivity|].
  destruct (optimistic_update_no_rollback Scenario.toSnake Scenario.ticking
              client render w order "ENG-001" (Finite (-1)) "install" "RO-10"
              eq_refl)
    as ((Ha1 & _ & Ha3 & _) & (Hu1 & _ & Hu3 & _) & Hinv).
  destruct (Hinv (Scenario.eng001 5) eq_refl) as (_ & Hi2 & Hi3 & _).
  split; [split; [exact Ha1 | by apply Ha3]|].
  split; [split; [exact Hu1 | by apply Hu3]|].
  split; [exact Hi2 | by apply Hi3].
Defined.



(** The first table is read and the second fails: the orders are loaded,
    the inventory is not, the error holds the cause, and the main screen is
    selected. *)
Example bootstrap_second_read_fails :
  let client : Client :=
    λ call, match call with
            | Select "repair_orders" =>
                Resolved (Some [Scenario.toSnake Scenario.ro2]) None
            | _ => Rejected (Some {| JsError.message := Some "timeout" |})
            end in
  let w' := exec (runEffect Scenario.toCamelOrders Scenario.toCamelParts
                    true (Some client) Scenario.typeErrorMessage) Scenario.pageLoad in
  RepairOrder.id <$> repairOrders (state w') = ["RO-2"]
  ∧ masterInventory (state w') = []
  ∧ error (state w') = Some "timeout"
  ∧ isDemoMode (state w') = false
  ∧ screen (state w') = MainScreen
  ∧ remoteCalls (trace w')
    = [Select "repair_orders"; Select "master_inventory"].
Proof. by vm_compute. Qed.

(** C9 at ENG-001 with 5 on hand, one unit consumed twice with a render in
    between. *)
Lemma updateInventory_twice_two_alerts_witness :
  let render1 := Scenario.session true 5 in
  let w := Scenario.world true 5 in
  let w1 := exec (updateInventory None Scenario.ticking render1 "ENG-001"
                    (Finite (-1)) "install" "RO-10") w in
  let render2 := state w1 in
  let w2 := exec (updateInventory None Scenario.ticking render2 "ENG-001"
                    (Finite (-1)) "install" "RO-10") w1 in
  findPart "ENG-001" (masterInventory render1) = Some (Scenario.eng001 5)
  ∧ jsLe (jsAdd (Finite 5) (Finite (-1))) (Finite 5) = true
  ∧ findPart "ENG-001" (masterInventory render2) = Some (Scenario.eng001 4)
  ∧ jsLe (jsAdd (Finite 4) (Finite (-1))) (Finite 5) = true
  ∧ inventoryAlerts (state w2)
    = [alertAt Scenario.ticking 2
         (lowStock (Scenario.eng001 4) "ENG-001" "install" "RO-10");
       alertAt Scenario.ticking 0
         (lowStock (Scenario.eng001 5) "ENG-001" "install" "RO-10")]
  ∧ length (inventoryAlerts (state w2)) = 2.
Proof.
  intros render1 w w1 render2 w2.
  split; [reflexivity|]. split; [reflexivity|].
  split; [reflexivity|]. split; [reflexivity|].
  destruct (updateInventory_twice_two_alerts None Scenario.ticking
              render1 render2 w "ENG-001" (Finite (-1)) "install" "RO-10"
              (Scenario.eng001 5) (Scenario.eng001 4)
              eq_refl eq_refl eq_refl eq_refl)
    as (Hlog & Hlen & _).
  split; [exact Hlog | exact Hlen].
Defined.

(** ** The scenarios of the specification *)

(** Scenario 1: ENG-001 at 5 with reorder point 5, one unit consumed for
    RO-10: 4 on hand and exactly one alert, for RO-10 and ENG-001. *)
Example scenario_1 :
  let w' := exec (updateInventory None Scenario.ticking
                    (Scenario.session true 5) "ENG-001" (Finite (-1)) "install"
                    "RO-10") (Scenario.world true 5) in
  Part.quantityOnHand <$> findPart "ENG-001" (masterInventory (state w'))
  = Some (Finite 4)
  ∧ (InventoryAlert.partNumber <$> inventoryAlerts (state w')) = ["ENG-001"]
  ∧ (InventoryAlert.roId <$> inventoryAlerts (state w')) = ["RO-10"]
  ∧ (InventoryAlert.message <$> inventoryAlerts (state w'))
    = ["Low stock: Impeller kit"].
Proof. by vm_compute. Qed.

(** Scenario 2: the same part at 10, two units consumed: 8 on hand and no
    alert. *)
Example scenario_2 :
  let w' := exec (updateInventory None Scenario.ticking
                    (Scenario.session true 10) "ENG-001" (Finite (-2)) "install"
                    "RO-10") (Scenario.world true 10) in
  Part.quantityOnHand <$> findPart "ENG-001" (masterInventory (state w'))
  = Some (Finite 8)
  ∧ inventoryAlerts (state w') = [].
Proof. by vm_compute. Qed.

(** Scenario 4: RO-1 is created NEW and updated with a full record whose
    status is AUTHORIZED; looking RO-1 up gives that status. *)
Example scenario_4 :
  let w1 := exec (addRO Scenario.toSnake None initialState
                    (Scenario.ro1 "NEW")) Scenario.pageLoad in
  let w2 := exec (updateRO Scenario.toSnake None (state w1)
                    (Scenario.ro1 "AUTHORIZED")) w1 in
  List.find (λ ro, String.eqb (RepairOrder.id ro) "RO-1")
    (repairOrders (state w2))
  = Some (Scenario.ro1 "AUTHORIZED").
Proof. reflexivity. Qed.

(** Scenario 5: in simulated mode [addRO] leaves the request log empty, even
    with a client present. *)
Example scenario_5 :
  remoteCalls
    (trace (exec (addRO Scenario.toSnake (Some Scenario.accepting)
                    (Scenario.session true 5) Scenario.ro2)
              (Scenario.world true 5)))
  = [].
Proof. reflexivity. Qed.

(** A handler reused without a render in between reads the inventory of its
    own render: the second of two such calls starts again from 10, so one
    unit consumed twice leaves 9. *)
Example updateInventory_same_render_twice :
  let render := Scenario.session true 10 in
  let w1 := exec (updateInventory None Scenario.ticking render "ENG-001"
                    (Finite (-1)) "install" "RO-10") (Scenario.world true 10) in
  let w2 := exec (updateInventory None Scenario.ticking render "ENG-001"
                    (Finite (-1)) "install" "RO-10") w1 in
  Part.quantityOnHand <$> findPart "ENG-001" (masterInventory (state w2))
  = Some (Finite 9).
Proof. by vm_compute. Qed.

(** * Further properties of the component *)

(** ** Bootstrap: the remaining paths *)


(** X1: in a session that is not simulated, with the store configured and
    both reads resolving without an error object, the bootstrap replaces the
    orders by the converted rows of the first read and the inventory by the
    converted rows of the second (a null [data] counting as no rows), leaves
    no error and no loading flag, selects the main screen, and has issued
    exactly the two reads, orders first. *)
Theorem bootstrap_loads_both_tables
    (toCamelOrders : list Row → list RepairOrder.t)
    (toCamelParts : list Row → list Part.t) (client : Client)
    (typeErrorMessage : string) (w : World)
    (roData invData : option (list Row)) :
  isDemoMode (state w) = false →
  client (Select "repair_orders") = Resolved roData None →
  client (Select "master_inventory") = Resolved invData None →
  let boot := runEffect toCamelOrders toCamelParts true (Some client)
      typeErrorMessage in
  let w' := exec boot w in
  completion boot w = Normal tt
  ∧ repairOrders (state w') = toCamelOrders (default [] roData)
  ∧ masterInventory (state w') = toCamelParts (default [] invData)
  ∧ error (state w') = None
  ∧ isLoading (state w') = false
  ∧ screen (state w') = MainScreen
  ∧ trace w'
    = trace w
      ++ [EvSet SIsLoading; EvSet SError;
          EvRemote (Select "repair_orders"); EvSet SRepairOrders;
          EvRemote (Select "master_inventory"); EvSet SMasterInventory;
          EvSet SIsLoading].
Proof.
  intros Hmode Hro Hinv boot w'. unfold w', boot. unfold_bootstrap.
  rewrite Hmode. simpl. rewrite Hro. simpl. rewrite Hinv. simpl.
  repeat split; try reflexivity. by rewrite <- !app_assoc.
Qed.

(** X2: when the read of [repair_orders] fails, the bootstrap never asks
    for [master_inventory]: one request is issued, and the orders and the
    inventory held before are left as they were. *)
Theorem bootstrap_first_read_failure_stops
    (toCamelOrders : list Row → list RepairOrder.t)
    (toCamelParts : list Row → list Part.t) (client : Client)
    (typeErrorMessage : string) (w : World) (e : JsError.t) :
  isDemoMode (state w) = false →
  failsWith (client (Select "repair_orders")) e →
  let w' := exec (runEffect toCamelOrders toCamelParts true (Some client)
      typeErrorMessage) w in
  remoteCalls (trace w') = remoteCalls (trace w) ++ [Select "repair_orders"]
  ∧ repairOrders (state w') = repairOrders (state w)
  ∧ masterInventory (state w') = masterInventory (state w)
  ∧ error (state w')
    = Some (orElse (JsError.message e) "Uplink to Command Database failed.").
Proof.
  intros Hmode Hfail w'. unfold w'. unfold_bootstrap.
  rewrite Hmode. simpl.
  destruct Hfail as [H | [data H]]; rewrite H; simpl;
    rewrite !remoteCalls_app; simpl; by rewrite !app_nil_r.
Qed.

(** X3: when [repair_orders] is read and the read of [master_inventory]
    fails, the load is partial: the orders are the converted rows, the
    inventory held before stays, and the error holds the cause. *)
Theorem bootstrap_second_read_failure_partial
    (toCamelOrders : list Row → list RepairOrder.t)
    (toCamelParts : list Row → list Part.t) (client : Client)
    (typeErrorMessage : string) (w : World)
    (roData : option (list Row)) (e : JsError.t) :
  isDemoMode (state w) = false →
  client (Select "repair_orders") = Resolved roData None →
  failsWith (client (Select "master_inventory")) e →
  let w' := exec (runEffect toCamelOrders toCamelParts true (Some client)
      typeErrorMessage) w in
  repairOrders (state w') = toCamelOrders (default [] roData)
  ∧ masterInventory (state w') = masterInventory (state w)
  ∧ error (state w')
    = Some (orElse (JsError.message e) "Uplink to Command Database failed.")
  ∧ remoteCalls (trace w')
    = remoteCalls (trace w)
      ++ [Select "repair_orders"; Select "master_inventory"].
Proof.
  intros Hmode Hro Hfail w'. unfold w'. unfold_bootstrap.
  rewrite Hmode. simpl. rewrite Hro. simpl.
  destruct Hfail as [H | [data H]]; rewrite H; simpl;
    rewrite !remoteCalls_app; simpl; rewrite ?app_nil_r, <- ?app_assoc;
    done.
Qed.


(** ** Orders: how the handlers compose *)

Lemma replaceOrder_id (order ro : RepairOrder.t) :
  RepairOrder.id (replaceOrder order ro) = RepairOrder.id ro.
Proof.
  unfold replaceOrder.
  by destruct (String.eqb_spec (RepairOrder.id ro) (RepairOrder.id order)).
Qed.

Lemma replaceOrder_same_id (order ro : RepairOrder.t) :
  RepairOrder.id ro = RepairOrder.id order → replaceOrder order ro = order.
Proof. intros H. unfold replaceOrder. by rewrite H, String.eqb_refl. Qed.

Lemma replaceOrder_other_id (order ro : RepairOrder.t) :
  RepairOrder.id ro ≠ RepairOrder.id order → replaceOrder order ro = ro.
Proof.
  intros H. unfold replaceOrder.
  by destruct (String.eqb_spec (RepairOrder.id ro) (RepairOrder.id order)).
Qed.

(** X5: on the local state [updateRO] is idempotent: a second call with the
    same record, from the same or a later render, changes nothing. *)
Theorem updateRO_idempotent (toSnake : RepairOrder.t → Row)
    (supabase : option Client) (render1 render2 : AppState) (w : World)
    (order : RepairOrder.t) :
  let w1 := exec (updateRO toSnake supabase render1 order) w in
  let w2 := exec (updateRO toSnake supabase render2 order) w1 in
  state w2 = state w1.
Proof.
  intros w1 w2. unfold w2. rewrite updateRO_state.
  assert (H1 : state w1
               = updateSlot_repairOrders (map (replaceOrder order)) (state w)).
  { unfold w1. apply updateRO_state. }
  rewrite H1. unfold updateSlot_repairOrders. simpl. f_equal.
  rewrite map_map. apply map_ext. intros ro.
  destruct (decide (RepairOrder.id ro = RepairOrder.id order)) as [Heq|Hne].
  - rewrite (replaceOrder_same_id order ro Heq).
    by apply replaceOrder_same_id.
  - rewrite (replaceOrder_other_id order ro Hne).
    by apply replaceOrder_other_id.
Qed.

(** X6: [updateRO] never changes which ids the collection holds nor their
    order, and afterwards every record carrying the id of the given record
    is the given record. *)
Theorem updateRO_ids_preserved (toSnake : RepairOrder.t → Row)
    (supabase : option Client) (render : AppState) (w : World)
    (order : RepairOrder.t) :
  let l := repairOrders (state w) in
  let l' := repairOrders
              (state (exec (updateRO toSnake supabase render order) w)) in
  RepairOrder.id <$> l' = RepairOrder.id <$> l
  ∧ ∀ ro, ro ∈ l' → RepairOrder.id ro = RepairOrder.id order → ro = order.
Proof.
  intros l l'.
  assert (Hl' : l' = map (replaceOrder order) l).
  { unfold l'. by rewrite updateRO_state. }
  rewrite Hl'. split.
  - rewrite <- list_fmap_compose. apply list_fmap_ext.
    intros i ro _. apply replaceOrder_id.
  - intros ro Hin Hid. apply list_elem_of_fmap in Hin as (old & -> & _).
    rewrite replaceOrder_id in Hid. by apply replaceOrder_same_id.
Qed.

(** X7: [addRO] followed by [updateRO] with a record of the same id: the
    appended record and every older record with that id are replaced by the
    updating record, the others keep their place. *)
Theorem addRO_then_updateRO (toSnake : RepairOrder.t → Row)
    (supabase : option Client) (render1 render2 : AppState) (w : World)
    (order order' : RepairOrder.t) :
  RepairOrder.id order' = RepairOrder.id order →
  let w1 := exec (addRO toSnake supabase render1 order) w in
  let w2 := exec (updateRO toSnake supabase render2 order') w1 in
  repairOrders (state w2)
  = map (replaceOrder order') (repairOrders (state w)) ++ [order'].
Proof.
  intros Hid w1 w2. unfold w2. rewrite updateRO_state.
  unfold w1. rewrite addRO_state. simpl.
  rewrite map_app. simpl. f_equal. f_equal.
  by apply replaceOrder_same_id.
Qed.

(** X8: [addRO] and [updateRO] write the orders only: the inventory, the
    alert log, the mode, the loading flag, the error and the clock are as
    before, whatever the client replies. *)
Theorem order_handlers_frame (toSnake : RepairOrder.t → Row)
    (supabase : option Client) (render : AppState) (w : World)
    (order : RepairOrder.t) :
  let untouched (w' : World) :=
    masterInventory (state w') = masterInventory (state w)
    ∧ inventoryAlerts (state w') = inventoryAlerts (state w)
    ∧ isDemoMode (state w') = isDemoMode (state w)
    ∧ isLoading (state w') = isLoading (state w)
    ∧ error (state w') = error (state w)
    ∧ clockReads w' = clockReads w in
  untouched (exec (addRO toSnake supabase render order) w)
  ∧ untouched (exec (updateRO toSnake supabase render order) w).
Proof.
  intros untouched. unfold untouched.
  rewrite addRO_state, updateRO_state. simpl.
  split; (repeat split; try done); unfold_handlers;
    destruct (isDemoMode render), supabase as [client|]; simpl; try done;
    by destruct (client _).
Qed.

(** ** Inventory: sequences of calls and duplicated part numbers *)

Lemma updateInventory_inventory (supabase : option Client)
    (dateNow : nat → Z) (render : AppState) (w : World) (partNumber : string)
    (d : JsNumber) (reason roId : string) (p : Part.t) :
  findPart partNumber (masterInventory render) = Some p →
  masterInventory
    (state (exec (updateInventory supabase dateNow render partNumber d
                    reason roId) w))
  = map (setQuantity partNumber (jsAdd (Part.quantityOnHand p) d))
      (masterInventory (state w)).
Proof.
  intros Hfind. rewrite (updateInventory_state _ _ _ _ _ _ _ _ p Hfind).
  cbv zeta. by destruct (jsLe _ _).
Qed.

Lemma map_setQuantity_absent (partNumber : string) (q : JsNumber)
    (l : list Part.t) :
  (∀ x, x ∈ l → Part.partNumber x ≠ partNumber) →
  map (setQuantity partNumber q) l = l.
Proof.
  induction l as [|x l IH]; intros Habs; simpl; [done|].
  rewrite IH by (intros y Hy; apply Habs; by right).
  unfold setQuantity.
  destruct (String.eqb_spec (Part.partNumber x) partNumber) as [Heq|]; [|done].
  exfalso. apply (Habs x); [by left|done].
Qed.

Lemma withQuantityOnHand_own (p : Part.t) :
  Part.withQuantityOnHand p (Part.quantityOnHand p) = p.
Proof. by destruct p. Qed.

Lemma map_setQuantity_restore (partNumber : string) (q : JsNumber)
    (l : list Part.t) (p : Part.t) :
  NoDup (Part.partNumber <$> l) →
  findPart partNumber l = Some p →
  map (setQuantity partNumber (Part.quantityOnHand p))
    (map (setQuantity partNumber q) l) = l.
Proof.
  unfold findPart. induction l as [|x l IH]; simpl; [done|].
  intros Hnd Hfind. apply NoDup_cons in Hnd as [Hx Hnd].
  destruct (String.eqb_spec (Part.partNumber x) partNumber) as [Heq|Hne].
  - injection Hfind as <-.
    assert (Habs : ∀ y, y ∈ l → Part.partNumber y ≠ partNumber).
    { intros y Hy Hpn. apply Hx. rewrite Heq, <- Hpn.
      by apply list_elem_of_fmap_2. }
    rewrite (map_setQuantity_absent partNumber q l Habs),
      (map_setQuantity_absent partNumber _ l Habs).
    f_equal. destruct x as [pn descr onHand reorder rest].
    simpl in Heq. subst pn. unfold setQuantity. simpl.
    rewrite String.eqb_refl. simpl. by rewrite String.eqb_refl.
  - rewrite (IH Hnd Hfind). f_equal.
    unfold setQuantity.
    destruct (String.eqb_spec (Part.partNumber x) partNumber); [done|].
    by destruct (String.eqb_spec (Part.partNumber x) partNumber).
Qed.

(** X9: two [updateInventory] calls for one part, the second from a handler
    of the render that follows the first, add both deltas: the part ends
    with its quantity plus [d1] plus [d2], each sum as numbers add. *)
Theorem updateInventory_sequential_adds_both (supabase : option Client)
    (dateNow : nat → Z) (w : World) (partNumber : string) (d1 d2 : JsNumber)
    (reason1 roId1 reason2 roId2 : string) (p : Part.t) :
  findPart partNumber (masterInventory (state w)) = Some p →
  let w1 := exec (updateInventory supabase dateNow (state w) partNumber d1
                    reason1 roId1) w in
  let w2 := exec (updateInventory supabase dateNow (state w1) partNumber d2
                    reason2 roId2) w1 in
  findPart partNumber (masterInventory (state w2))
  = Some (Part.withQuantityOnHand p
            (jsAdd (jsAdd (Part.quantityOnHand p) d1) d2)).
Proof.
  intros Hfind w1 w2.
  assert (H1 : findPart partNumber (masterInventory (state w1))
               = Some (Part.withQuantityOnHand p (jsAdd (Part.quantityOnHand p) d1))).
  { unfold w1. rewrite (updateInventory_inventory _ _ _ _ _ _ _ _ p Hfind).
    by apply findPart_setQuantity. }
  unfold w2. rewrite (updateInventory_inventory _ _ _ _ _ _ _ _ _ H1).
  by rewrite (findPart_setQuantity _ _ _ _ H1).
Qed.

(** X10: two [updateInventory] calls for one part through the handler of
    one render: both read the quantity that render holds, so the part ends
    with that quantity plus the second delta, and the first delta is
    lost. *)
Theorem updateInventory_same_render_last_wins (supabase : option Client)
    (dateNow : nat → Z) (render : AppState) (w : World)
    (partNumber : string) (d1 d2 : JsNumber)
    (reason1 roId1 reason2 roId2 : string) (p p0 : Part.t) :
  findPart partNumber (masterInventory render) = Some p →
  findPart partNumber (masterInventory (state w)) = Some p0 →
  let w1 := exec (updateInventory supabase dateNow render partNumber d1
                    reason1 roId1) w in
  let w2 := exec (updateInventory supabase dateNow render partNumber d2
                    reason2 roId2) w1 in
  findPart partNumber (masterInventory (state w2))
  = Some (Part.withQuantityOnHand p0 (jsAdd (Part.quantityOnHand p) d2)).
Proof.
  intros Hrender Hfind w1 w2.
  assert (H1 : findPart partNumber (masterInventory (state w1))
               = Some (Part.withQuantityOnHand p0
                         (jsAdd (Part.quantityOnHand p) d1))).
  { unfold w1. rewrite (updateInventory_inventory _ _ _ _ _ _ _ _ p Hrender).
    by apply findPart_setQuantity. }
  unfold w2. rewrite (updateInventory_inventory _ _ _ _ _ _ _ _ p Hrender).
  by rewrite (findPart_setQuantity _ _ _ _ H1).
Qed.

(** X11: for a part with an integer quantity [a] on hand of magnitude at
    most 2^53 and an integer [b] whose sum with [a] is within 2^53 too,
    changing the quantity by [b] and then by [- b], with a render in
    between, restores the record [find] returns for the part; when part
    numbers are unique it restores the whole inventory.  (The alert log
    keeps whatever the two calls raised.) *)
Theorem updateInventory_round_trip (supabase : option Client)
    (dateNow : nat → Z) (w : World) (partNumber : string) (a b : Z)
    (reason1 roId1 reason2 roId2 : string) (p : Part.t) :
  findPart partNumber (masterInventory (state w)) = Some p →
  Part.quantityOnHand p = Finite a →
  (Z.abs a ≤ 2 ^ 53)%Z →
  (Z.abs (a + b) ≤ 2 ^ 53)%Z →
  let w1 := exec (updateInventory supabase dateNow (state w) partNumber
                    (Finite b) reason1 roId1) w in
  let w2 := exec (updateInventory supabase dateNow (state w1) partNumber
                    (Finite (- b)) reason2 roId2) w1 in
  findPart partNumber (masterInventory (state w2)) = Some p
  ∧ (NoDup (Part.partNumber <$> masterInventory (state w)) →
     masterInventory (state w2) = masterInventory (state w)).
Proof.
  intros Hfind Hq Ha Hab w1 w2.
  assert (Hsum : jsAdd (Part.quantityOnHand p) (Finite b) = Finite (a + b)).
  { rewrite Hq. by apply jsAdd_exact. }
  assert (Hback : jsAdd (Finite (a + b)) (Finite (- b))
                  = Part.quantityOnHand p).
  { rewrite Hq, jsAdd_exact; [f_equal; lia|].
    by replace (a + b + - b)%Z with a by lia. }
  assert (Hinv1 : masterInventory (state w1)
                  = map (setQuantity partNumber (Finite (a + b)))
                      (masterInventory (state w))).
  { unfold w1. rewrite (updateInventory_inventory _ _ _ _ _ _ _ _ p Hfind).
    by rewrite Hsum. }
  assert (H1 : findPart partNumber (masterInventory (state w1))
               = Some (Part.withQuantityOnHand p (Finite (a + b)))).
  { rewrite Hinv1. by apply findPart_setQuantity. }
  assert (Hinv2 : masterInventory (state w2)
                  = map (setQuantity partNumber (Part.quantityOnHand p))
                      (masterInventory (state w1))).
  { unfold w2. rewrite (updateInventory_inventory _ _ _ _ _ _ _ _ _ H1).
    change (Part.quantityOnHand (Part.withQuantityOnHand p (Finite (a + b))))
      with (Finite (a + b)).
    by rewrite Hback. }
  split.
  - rewrite Hinv2, (findPart_setQuantity _ _ _ _ H1). simpl.
    f_equal. by destruct p.
  - intros Hnd. rewrite Hinv2, Hinv1. by apply map_setQuantity_restore.
Qed.

(** X12: when several records carry the part number, every one of them
    ends with the quantity of the first plus the delta; the quantity a later
    duplicate held is overwritten. *)
Theorem updateInventory_duplicates_share_quantity (supabase : option Client)
    (dateNow : nat → Z) (render : AppState) (w : World)
    (partNumber : string) (d : JsNumber) (reason roId : string) (p : Part.t) :
  findPart partNumber (masterInventory render) = Some p →
  let l' := masterInventory
              (state (exec (updateInventory supabase dateNow render
                              partNumber d reason roId) w)) in
  ∀ (i : nat) (q : Part.t),
    masterInventory (state w) !! i = Some q →
    Part.partNumber q = partNumber →
    l' !! i = Some (Part.withQuantityOnHand q (jsAdd (Part.quantityOnHand p) d)).
Proof.
  intros Hfind l' i q Hq Hpn. unfold l'.
  rewrite (updateInventory_inventory _ _ _ _ _ _ _ _ p Hfind).
  rewrite lookup_setQuantity, Hq. simpl. unfold setQuantity.
  by rewrite Hpn, String.eqb_refl.
Qed.

(** ** The alert log under sequences of calls *)

Lemma updateInventory_clock (supabase : option Client) (dateNow : nat → Z)
    (render : AppState) (w : World) (partNumber : string) (d : JsNumber)
    (reason roId : string) (p : Part.t) :
  findPart partNumber (masterInventory render) = Some p →
  clockReads (exec (updateInventory supabase dateNow render partNumber d
                      reason roId) w)
  = if (jsLe (jsAdd (Part.quantityOnHand p) d) (Part.reorderPoint p))
    then S (S (clockReads w)) else clockReads w.
Proof.
  unfold findPart. intros Hfind. unfold_handlers. rewrite Hfind. simpl.
  destruct (jsLe _ _); destruct (isDemoMode render), supabase as [client|];
    simpl; try done; by destruct (client _).
Qed.

Lemma order_handlers_clock (toSnake : RepairOrder.t → Row)
    (supabase : option Client) (render : AppState) (w : World)
    (order : RepairOrder.t) :
  clockReads (exec (addRO toSnake supabase render order) w) = clockReads w
  ∧ clockReads (exec (updateRO toSnake supabase render order) w)
    = clockReads w.
Proof.
  unfold_handlers.
  destruct (isDemoMode render), supabase as [client|]; simpl; try done.
  split; by destruct (client _).
Qed.

Lemma logUnique_prepend (dateNow : nat → Z) (n : nat) (a : AlertInput.t)
    (log : list InventoryAlert.t) :
  (∀ i j, dateNow i = dateNow j → i = j) →
  Forall (stampedBefore dateNow n) log →
  NoDup (InventoryAlert.id <$> log) →
  Forall (stampedBefore dateNow (S (S n))) (alertAt dateNow n a :: log)
  ∧ NoDup (InventoryAlert.id <$> alertAt dateNow n a :: log).
Proof.
  intros Hinj Hst Hnd. split.
  - apply Forall_cons. split; [exists n; split; [lia|done]|].
    eapply Forall_impl; [exact Hst|].
    intros b (k & Hk & Hid). exists k. split; [lia|done].
  - rewrite fmap_cons. apply NoDup_cons. split; [|done].
    intros Hin. apply list_elem_of_fmap in Hin as (b & Hid & Hb).
    rewrite Forall_forall in Hst. destruct (Hst b Hb) as (k & Hk & Hidb).
    rewrite Hidb in Hid. simpl in Hid.
    apply (inj (String.app _)) in Hid. apply (inj pretty) in Hid.
    apply Hinj in Hid. lia.
Qed.

(** X13: no mutation handler removes or rewrites an alert: after [addRO],
    [updateRO], [addInventoryAlert] or [updateInventory] the log held before
    is a suffix of the log. *)
Theorem alert_log_only_grows (toSnake : RepairOrder.t → Row)
    (supabase : option Client) (dateNow : nat → Z) (render : AppState)
    (w : World) (order : RepairOrder.t) (alert : AlertInput.t)
    (partNumber : string) (d : JsNumber) (reason roId : string) :
  let log := inventoryAlerts (state w) in
  log `suffix_of`
    inventoryAlerts (state (exec (addRO toSnake supabase render order) w))
  ∧ log `suffix_of`
      inventoryAlerts (state (exec (updateRO toSnake supabase render order) w))
  ∧ log `suffix_of`
      inventoryAlerts (state (exec (addInventoryAlert dateNow alert) w))
  ∧ log `suffix_of`
      inventoryAlerts
        (state (exec (updateInventory supabase dateNow render partNumber d
                        reason roId) w)).
Proof.
  intros log. rewrite addRO_state, updateRO_state. simpl.
  split; [done|]. split; [done|].
  split; [by apply suffix_cons_r|].
  destruct (findPart partNumber (masterInventory render)) as [p|] eqn:Hfind.
  - rewrite (updateInventory_state _ _ _ _ _ _ _ _ p Hfind). cbv zeta.
    destruct (jsLe _ _); simpl; [by apply suffix_cons_r|done].
  - unfold exec. by rewrite updateInventory_missing.
Qed.

(** X14: with a clock that never returns the same reading twice, the
    mutation handlers keep the ids of the alert log pairwise distinct (and
    built from readings already taken): the property holds of an empty log
    and is preserved by [addInventoryAlert], [updateInventory], [addRO] and
    [updateRO]. *)
Theorem alert_ids_unique_under_advancing_clock (toSnake : RepairOrder.t → Row)
    (supabase : option Client) (dateNow : nat → Z) (render : AppState)
    (w : World) (order : RepairOrder.t) (alert : AlertInput.t)
    (partNumber : string) (d : JsNumber) (reason roId : string) :
  (∀ i j, dateNow i = dateNow j → i = j) →
  (inventoryAlerts (state w) = [] → logUnique dateNow w)
  ∧ (logUnique dateNow w →
     logUnique dateNow (exec (addInventoryAlert dateNow alert) w)
     ∧ logUnique dateNow
         (exec (updateInventory supabase dateNow render partNumber d
                  reason roId) w)
     ∧ logUnique dateNow (exec (addRO toSnake supabase render order) w)
     ∧ logUnique dateNow (exec (updateRO toSnake supabase render order) w)).
Proof.
  intros Hinj. split.
  { intros Hnil. unfold logUnique. rewrite Hnil. split; [done|constructor]. }
  intros [Hst Hnd].
  destruct (order_handlers_clock toSnake supabase render w order)
    as [Hc1 Hc2].
  assert (Ha1 : inventoryAlerts
                  (state (exec (addRO toSnake supabase render order) w))
                = inventoryAlerts (state w)) by by rewrite addRO_state.
  assert (Ha2 : inventoryAlerts
                  (state (exec (updateRO toSnake supabase render order) w))
                = inventoryAlerts (state w)) by by rewrite updateRO_state.
  split; [|split; [|split]].
  - by apply logUnique_prepend.
  - destruct (findPart partNumber (masterInventory render)) as [p|] eqn:Hfind.
    + unfold logUnique.
      rewrite (updateInventory_clock _ _ _ _ _ _ _ _ p Hfind),
        (updateInventory_state _ _ _ _ _ _ _ _ p Hfind).
      cbv zeta. destruct (jsLe _ _); simpl; [|done].
      by apply logUnique_prepend.
    + unfold exec. by rewrite updateInventory_missing.
  - unfold logUnique. by rewrite Ha1, Hc1.
  - unfold logUnique. by rewrite Ha2, Hc2.
Qed.

(** ** Role and technician *)

Lemma navStep_keeps_invariant (n : NavState) (ev : NavEvent) :
  (is_Some (currentTechnicianId n) → role n = TECHNICIAN) →
  is_Some (currentTechnicianId (navStep n ev)) →
  role (navStep n ev) = TECHNICIAN.
Proof.
  intros Hinv. unfold navStep.
  destruct (rendered n ev) eqn:Hr; [|done].
  destruct ev as [r | id |]; simpl in *.
  - destruct (decide (r = role n)); [done|].
    unfold effect_role. simpl.
    destruct (decide (r ≠ TECHNICIAN)) as [|Hrt]; simpl.
    + by intros [? [=]].
    + intros _. by destruct (decide (r = TECHNICIAN)).
  - intros _. apply andb_prop in Hr as [Hrole _].
    by apply bool_decide_eq_true in Hrole.
  - by intros [? [=]].
Qed.

Lemma navSteps_keep_invariant (evs : list NavEvent) (n : NavState) :
  (is_Some (currentTechnicianId n) → role n = TECHNICIAN) →
  is_Some (currentTechnicianId (fold_left navStep evs n)) →
  role (fold_left navStep evs n) = TECHNICIAN.
Proof.
  revert n. induction evs as [|ev evs IH]; intros n Hinv; simpl; [done|].
  apply IH. by apply navStep_keeps_invariant.
Qed.

(** X16: after the mount effect and any sequence of clicks on the role bar,
    the technician buttons and the logout, a technician is identified only
    while the role is TECHNICIAN; and selecting any other role leaves no
    technician identified. *)
Theorem technician_only_in_technician_role (evs : list NavEvent) :
  let n := fold_left navStep evs (effect_role initialNav) in
  (is_Some (currentTechnicianId n) → role n = TECHNICIAN)
  ∧ ∀ r, r ≠ TECHNICIAN →
      currentTechnicianId (navStep n (SelectRole r)) = None.
Proof.
  intros n.
  assert (Hinv : is_Some (currentTechnicianId n) → role n = TECHNICIAN).
  { apply navSteps_keep_invariant. by intros [? [=]]. }
  split; [exact Hinv|].
  intros r Hr. unfold navStep. simpl.
  destruct (decide (r = role n)) as [Heq|Hne].
  - destruct (currentTechnicianId n) as [t|] eqn:Ht; [|done].
    exfalso. apply Hr. rewrite Heq. apply Hinv. by exists t.
  - unfold effect_role. simpl. by destruct (decide (r ≠ TECHNICIAN)).
Qed.

(** ** The derived views after [updateRO] *)

Lemma find_after_replaceOrder (f : RepairOrder.t → bool)
    (order : RepairOrder.t) (l : list RepairOrder.t) :
  (∀ ro, ro ∈ l → f ro = true → RepairOrder.id ro = RepairOrder.id order) →
  List.find f (map (replaceOrder order) l)
  = if f order
       && existsb (λ ro, String.eqb (RepairOrder.id ro) (RepairOrder.id order)) l
    then Some order else None.
Proof.
  induction l as [|x l IH]; intros Hall; simpl.
  { by rewrite andb_false_r. }
  assert (Htail : ∀ ro, ro ∈ l → f ro = true →
                        RepairOrder.id ro = RepairOrder.id order).
  { intros ro Hro. apply Hall. by right. }
  specialize (IH Htail).
  destruct (String.eqb_spec (RepairOrder.id x) (RepairOrder.id order))
    as [Heq|Hne].
  - rewrite (replaceOrder_same_id order x Heq).
    destruct (f order) eqn:Hf; simpl; [done|exact IH].
  - rewrite (replaceOrder_other_id order x Hne).
    destruct (f x) eqn:Hfx.
    + exfalso. apply Hne. apply Hall; [by left|done].
    + simpl. exact IH.
Qed.

Lemma filter_after_replaceOrder (f : RepairOrder.t → bool)
    (order : RepairOrder.t) (l : list RepairOrder.t) (x : RepairOrder.t) :
  x ∈ List.filter f (map (replaceOrder order) l)
  ↔ (x = order ∧ f order = true
     ∧ ∃ old, old ∈ l ∧ RepairOrder.id old = RepairOrder.id order)
    ∨ (x ∈ List.filter f l ∧ RepairOrder.id x ≠ RepairOrder.id order).
Proof.
  rewrite !list_elem_of_In, !filter_In, <- !list_elem_of_In.
  rewrite list_elem_of_In, in_map_iff. split.
  - intros [(old & Hx & Hold) Hf]. apply list_elem_of_In in Hold.
    destruct (decide (RepairOrder.id old = RepairOrder.id order))
      as [Heq|Hne].
    + rewrite (replaceOrder_same_id order old Heq) in Hx. subst x.
      left. eauto.
    + rewrite (replaceOrder_other_id order old Hne) in Hx. subst x.
      right. eauto.
  - intros [(-> & Hf & old & Hold & Hid) | ((Hx & Hf) & Hne)].
    + split; [|done]. exists old. split; [by apply replaceOrder_same_id|].
      by apply list_elem_of_In.
    + split; [|done]. exists x. split; [by apply replaceOrder_other_id|].
      by apply list_elem_of_In.
Qed.

(** X15: when every order that counts as active for the current technician
    carries the id of the record passed to [updateRO], the active order
    computed by the next render is decided by that record: none if the
    record does not count as active for the technician, the record itself
    if it does and the collection held its id. *)
Theorem activeROForTech_after_updateRO (ACTIVE READY_FOR_TECH : JsVal)
    (toSnake : RepairOrder.t → Row) (supabase : option Client)
    (render : AppState) (w : World) (order : RepairOrder.t)
    (current : option string) :
  let active (ro : RepairOrder.t) :=
    (hasStatus ro ACTIVE || hasStatus ro READY_FOR_TECH)
    && sameTechnician ro current in
  let l := repairOrders (state w) in
  let l' := repairOrders
              (state (exec (updateRO toSnake supabase render order) w)) in
  (∀ ro, ro ∈ l → active ro = true →
         RepairOrder.id ro = RepairOrder.id order) →
  (active order = false →
   activeROForTech ACTIVE READY_FOR_TECH l' current = None)
  ∧ (active order = true →
     (∃ old, old ∈ l ∧ RepairOrder.id old = RepairOrder.id order) →
     activeROForTech ACTIVE READY_FOR_TECH l' current = Some order).
Proof.
  intros active l l' Hall.
  assert (Hl' : l' = map (replaceOrder order) l).
  { unfold l'. by rewrite updateRO_state. }
  unfold activeROForTech. rewrite Hl'.
  change (λ ro, (hasStatus ro ACTIVE || hasStatus ro READY_FOR_TECH)
                && sameTechnician ro current) with active.
  rewrite (find_after_replaceOrder active order l Hall).
  split.
  - by intros ->.
  - intros -> (old & Hold & Hid). simpl.
    assert (Hex : existsb (λ ro, String.eqb (RepairOrder.id ro)
                                   (RepairOrder.id order)) l = true).
    { apply existsb_exists. exists old. split; [by apply list_elem_of_In|].
      by apply String.eqb_eq. }
    by rewrite Hex.
Qed.

(** X17: the orders handed to the billing page and to the parts page by
    the render after [updateRO]: the record passed, when its status puts it
    in the view and the collection held its id, together with the orders of
    the view before that carry another id. *)
Theorem views_after_updateRO
    (AUTHORIZED PARTS_PENDING COMPLETED PENDING_INVOICE : JsVal)
    (toSnake : RepairOrder.t → Row) (supabase : option Client)
    (render : AppState) (w : World) (order x : RepairOrder.t) :
  let l := repairOrders (state w) in
  let l' := repairOrders
              (state (exec (updateRO toSnake supabase render order) w)) in
  let held := ∃ old, old ∈ l ∧ RepairOrder.id old = RepairOrder.id order in
  (x ∈ billingOrders COMPLETED PENDING_INVOICE l'
   ↔ (x = order
      ∧ hasStatus order COMPLETED || hasStatus order PENDING_INVOICE = true
      ∧ held)
     ∨ (x ∈ billingOrders COMPLETED PENDING_INVOICE l
        ∧ RepairOrder.id x ≠ RepairOrder.id order))
  ∧ (x ∈ partsManagerOrders AUTHORIZED PARTS_PENDING l'
     ↔ (x = order
        ∧ bool_decide (RepairOrder.fields order !! "status"
                       ∈ [Some AUTHORIZED; Some PARTS_PENDING]) = true
        ∧ held)
       ∨ (x ∈ partsManagerOrders AUTHORIZED PARTS_PENDING l
          ∧ RepairOrder.id x ≠ RepairOrder.id order)).
Proof.
  intros l l' held.
  assert (Hl' : l' = map (replaceOrder order) l).
  { unfold l'. by rewrite updateRO_state. }
  rewrite Hl'. unfold billingOrders, partsManagerOrders, held.
  split; apply filter_after_replaceOrder.
Qed.

(** ** The further properties at concrete inputs *)

(** X1 at page load with a client holding one order and one part. *)
Lemma bootstrap_loads_both_tables_witness :
  let w' := exec (runEffect Scenario.toCamelOrders Scenario.toCamelParts true
                    (Some Sample.stocked) Scenario.typeErrorMessage) Scenario.pageLoad in
  isDemoMode (state Scenario.pageLoad) = false
  ∧ RepairOrder.id <$> repairOrders (state w') = ["RO-2"]
  ∧ Part.partNumber <$> masterInventory (state w') = ["PROP-014"]
  ∧ error (state w') = None
  ∧ screen (state w') = MainScreen.
Proof.
  intros w'. split; [reflexivity|].
  destruct (bootstrap_loads_both_tables Scenario.toCamelOrders
              Scenario.toCamelParts Sample.stocked Scenario.typeErrorMessage
              Scenario.pageLoad _ _ eq_refl eq_refl eq_refl)
    as (_ & Hro & Hinv & Herr & _ & Hscr & _).
  fold w' in Hro, Hinv, Herr, Hscr.
  split; [by rewrite Hro|]. split; [by rewrite Hinv|].
  split; [exact Herr | exact Hscr].
Defined.

(** X2 at page load with a client whose reads return an error object. *)
Lemma bootstrap_first_read_failure_stops_witness :
  let client := Scenario.failing "JWT expired" in
  let w' := exec (runEffect Scenario.toCamelOrders Scenario.toCamelParts true
                    (Some client) Scenario.typeErrorMessage) Scenario.pageLoad in
  isDemoMode (state Scenario.pageLoad) = false
  ∧ failsWith (client (Select "repair_orders"))
      {| JsError.message := Some "JWT expired" |}
  ∧ remoteCalls (trace w') = [Select "repair_orders"]
  ∧ error (state w') = Some "JWT expired".
Proof.
  intros client w'. split; [reflexivity|].
  assert (Hfail : failsWith (client (Select "repair_orders"))
                    {| JsError.message := Some "JWT expired" |}).
  { right. by exists None. }
  split; [exact Hfail|].
  destruct (bootstrap_first_read_failure_stops Scenario.toCamelOrders
              Scenario.toCamelParts client Scenario.typeErrorMessage
              Scenario.pageLoad _ eq_refl Hfail)
    as (Hcalls & _ & _ & Herr).
  split; [exact Hcalls | exact Herr].
Defined.

(** X3 at page load with a client whose second read is rejected. *)
Lemma bootstrap_second_read_failure_partial_witness :
  let w' := exec (runEffect Scenario.toCamelOrders Scenario.toCamelParts true
                    (Some Sample.halfDown) Scenario.typeErrorMessage) Scenario.pageLoad in
  isDemoMode (state Scenario.pageLoad) = false
  ∧ failsWith (Sample.halfDown (Select "master_inventory"))
      {| JsError.message := Some "timeout" |}
  ∧ RepairOrder.id <$> repairOrders (state w') = ["RO-2"]
  ∧ masterInventory (state w') = []
  ∧ error (state w') = Some "timeout".
Proof.
  intros w'. split; [reflexivity|].
  assert (Hfail : failsWith (Sample.halfDown (Select "master_inventory"))
                    {| JsError.message := Some "timeout" |}) by by left.
  split; [exact Hfail|].
  destruct (bootstrap_second_read_failure_partial Scenario.toCamelOrders
              Scenario.toCamelParts Sample.halfDown
              Scenario.typeErrorMessage Scenario.pageLoad _ _
              eq_refl eq_refl Hfail)
    as (Hro & Hinv & Herr & _).
  fold w' in Hro, Hinv, Herr.
  split; [by rewrite Hro|]. split; [exact Hinv | exact Herr].
Defined.

(** X7 at RO-1 added a second time and then updated to AUTHORIZED. *)
Lemma addRO_then_updateRO_witness :
  let w := Scenario.world true 5 in
  let w1 := exec (addRO Scenario.toSnake None (state w) (Scenario.ro1 "NEW"))
              w in
  let w2 := exec (updateRO Scenario.toSnake None (state w1)
                    (Scenario.ro1 "AUTHORIZED")) w1 in
  RepairOrder.id (Scenario.ro1 "AUTHORIZED")
  = RepairOrder.id (Scenario.ro1 "NEW")
  ∧ repairOrders (state w2)
    = [Scenario.ro1 "AUTHORIZED"; Scenario.ro2; Scenario.ro1 "AUTHORIZED"].
Proof.
  intros w w1 w2. split; [reflexivity|].
  exact (addRO_then_updateRO Scenario.toSnake None (state w) (state w1) w
           (Scenario.ro1 "NEW") (Scenario.ro1 "AUTHORIZED") eq_refl).
Defined.

(** X9 at ENG-001 with 10 on hand: one unit, then two, leave 7. *)
Lemma updateInventory_sequential_adds_both_witness :
  let w := Scenario.world true 10 in
  let w1 := exec (updateInventory None Scenario.ticking (state w) "ENG-001"
                    (Finite (-1)) "install" "RO-10") w in
  let w2 := exec (updateInventory None Scenario.ticking (state w1) "ENG-001"
                    (Finite (-2)) "install" "RO-11") w1 in
  findPart "ENG-001" (masterInventory (state w)) = Some (Scenario.eng001 10)
  ∧ findPart "ENG-001" (masterInventory (state w2))
    = Some (Scenario.eng001 7).
Proof.
  intros w w1 w2. split; [reflexivity|].
  exact (updateInventory_sequential_adds_both None Scenario.ticking w
           "ENG-001" (Finite (-1)) (Finite (-2)) "install" "RO-10" "install"
           "RO-11"
           (Scenario.eng001 10) eq_refl).
Defined.

(** X10 at ENG-001 with 10 on hand: one unit, then two, through the handler
    of one render, leave 8. *)
Lemma updateInventory_same_render_last_wins_witness :
  let w := Scenario.world true 10 in
  let w1 := exec (updateInventory None Scenario.ticking (state w) "ENG-001"
                    (Finite (-1)) "install" "RO-10") w in
  let w2 := exec (updateInventory None Scenario.ticking (state w) "ENG-001"
                    (Finite (-2)) "install" "RO-11") w1 in
  findPart "ENG-001" (masterInventory (state w)) = Some (Scenario.eng001 10)
  ∧ findPart "ENG-001" (masterInventory (state w2))
    = Some (Scenario.eng001 8).
Proof.
  intros w w1 w2. split; [reflexivity|].
  exact (updateInventory_same_render_last_wins None Scenario.ticking
           (state w) w "ENG-001" (Finite (-1)) (Finite (-2)) "install" "RO-10"
           "install" "RO-11" (Scenario.eng001 10) (Scenario.eng001 10) eq_refl eq_refl).
Defined.

(** X11 at ENG-001 with 10 on hand: three units out and three back. *)
Lemma updateInventory_round_trip_witness :
  let w := Scenario.world true 10 in
  let w1 := exec (updateInventory None Scenario.ticking (state w) "ENG-001"
                    (Finite (-3)) "install" "RO-10") w in
  let w2 := exec (updateInventory None Scenario.ticking (state w1) "ENG-001"
                    (Finite 3) "return" "RO-10") w1 in
  findPart "ENG-001" (masterInventory (state w)) = Some (Scenario.eng001 10)
  ∧ Part.quantityOnHand (Scenario.eng001 10) = Finite 10
  ∧ (Z.abs 10 ≤ 2 ^ 53)%Z
  ∧ (Z.abs (10 + -3) ≤ 2 ^ 53)%Z
  ∧ NoDup (Part.partNumber <$> masterInventory (state w))
  ∧ findPart "ENG-001" (masterInventory (state w2))
    = Some (Scenario.eng001 10)
  ∧ masterInventory (state w2) = masterInventory (state w).
Proof.
  intros w w1 w2. split; [reflexivity|]. split; [reflexivity|].
  split; [by vm_compute|]. split; [by vm_compute|].
  assert (Hnd : NoDup (Part.partNumber <$> masterInventory (state w))).
  { simpl. apply NoDup_cons. split; [|apply NoDup_singleton].
    intros H. by apply list_elem_of_singleton in H. }
  split; [exact Hnd|].
  destruct (updateInventory_round_trip None Scenario.ticking w "ENG-001"
              10 (-3) "install" "RO-10" "return" "RO-10" (Scenario.eng001 10)
              eq_refl eq_refl ltac:(by vm_compute) ltac:(by vm_compute))
    as [Hpart Hall].
  split; [exact Hpart | exact (Hall Hnd)].
Defined.

(** X12 at an inventory holding ENG-001 twice, with 10 and with 40 on
    hand: after one unit is consumed both records hold 9. *)
Lemma updateInventory_duplicates_share_quantity_witness :
  let w := Sample.duplicatedWorld in
  let l' := masterInventory
              (state (exec (updateInventory None Scenario.ticking (state w)
                              "ENG-001" (Finite (-1)) "install" "RO-10") w)) in
  findPart "ENG-001" (masterInventory (state w)) = Some (Scenario.eng001 10)
  ∧ masterInventory (state w) !! 2 = Some Sample.eng001dup
  ∧ Part.quantityOnHand Sample.eng001dup = Finite 40
  ∧ l' !! 2 = Some (Part.withQuantityOnHand Sample.eng001dup (Finite 9)).
Proof.
  intros w l'. split; [reflexivity|]. split; [reflexivity|].
  split; [reflexivity|].
  exact (updateInventory_duplicates_share_quantity None Scenario.ticking
           (state w) w "ENG-001" (Finite (-1)) "install" "RO-10" (Scenario.eng001 10)
           eq_refl 2 Sample.eng001dup eq_refl eq_refl).
Defined.

(** X14 at the ticking clock and an empty log. *)
Lemma alert_ids_unique_under_advancing_clock_witness :
  let w := Scenario.world true 5 in
  (∀ i j, Scenario.ticking i = Scenario.ticking j → i = j)
  ∧ logUnique Scenario.ticking w
  ∧ logUnique Scenario.ticking
      (exec (updateInventory None Scenario.ticking (state w) "ENG-001" (Finite (-1))
               "install" "RO-10") w).
Proof.
  intros w.
  assert (Hinj : ∀ i j, Scenario.ticking i = Scenario.ticking j → i = j).
  { unfold Scenario.ticking. intros i j H. lia. }
  split; [exact Hinj|].
  destruct (alert_ids_unique_under_advancing_clock Scenario.toSnake None
              Scenario.ticking (state w) w Scenario.ro2
              (lowStock (Scenario.eng001 5) "ENG-001" "install" "RO-10")
              "ENG-001" (Finite (-1)) "install" "RO-10" Hinj) as [Hbase Hstep].
  split; [exact (Hbase eq_refl)|].
  exact (proj1 (proj2 (Hstep (Hbase eq_refl)))).
Defined.

(** X15 at technician tech-1 whose order RO-2 is updated to COMPLETED. *)
Lemma activeROForTech_after_updateRO_witness :
  let w := Scenario.world true 5 in
  let current := Some "tech-1" in
  let l' := repairOrders
              (state (exec (updateRO Scenario.toSnake None (state w)
                              Sample.ro2done) w)) in
  activeROForTech (JStr "ACTIVE") (JStr "READY_FOR_TECH")
    (repairOrders (state w)) current = Some Scenario.ro2
  ∧ activeROForTech (JStr "ACTIVE") (JStr "READY_FOR_TECH") l' current = None.
Proof.
  intros w current l'. split; [by vm_compute|].
  refine (proj1 (activeROForTech_after_updateRO (JStr "ACTIVE")
                   (JStr "READY_FOR_TECH") Scenario.toSnake None (state w) w
                   Sample.ro2done current _) _).
  - intros ro Hro Hact. apply list_elem_of_In in Hro.
    destruct Hro as [<- | [<- | []]]; [|reflexivity].
    exfalso. vm_compute in Hact. discriminate Hact.
  - by vm_compute.
Defined.

(** ** Numbers and thrown values at concrete inputs *)

(** Past 2^53 only every other integer is a double, and a tie goes to the
    even significand; the nearest double of 2^1024 - 2^970 is out of
    range. *)
Example roundToDouble_beyond_2_53 :
  roundToDouble (2 ^ 53 + 1) = (2 ^ 53)%Z
  ∧ roundToDouble (2 ^ 53 + 3) = (2 ^ 53 + 4)%Z
  ∧ roundToDouble (- (2 ^ 53 + 3)) = (- (2 ^ 53 + 4))%Z
  ∧ jsAdd (Finite 1) (Finite (2 ^ 53)) = Finite (2 ^ 53)
  ∧ jsAdd (Finite (2 ^ 53)) (Finite (- 2 ^ 53)) = Finite 0
  ∧ deliver (2 ^ 1024 - 2 ^ 970 - 1) = Finite (2 ^ 1024 - 2 ^ 971)
  ∧ deliver (2 ^ 1024 - 2 ^ 970) = PosInfinity.
Proof. by vm_compute. Qed.

(** A read rejected with [undefined]: the value is logged, reading its
    message throws, the error variable stays null, the loading flag is
    lowered by the [finally] block, and the effect's promise is rejected
    with the TypeError. *)
Example bootstrap_read_rejected_with_undefined :
  let boot := runEffect Scenario.toCamelOrders Scenario.toCamelParts true
                (Some Scenario.rejectingWithUndefined)
                Scenario.typeErrorMessage in
  let w' := exec boot Scenario.pageLoad in
  completion boot Scenario.pageLoad
  = Thrown (Some {| JsError.message := Some Scenario.typeErrorMessage |})
  ∧ trace w'
    = [EvSet SIsLoading; EvSet SError; EvRemote (Select "repair_orders");
       EvConsoleError None; EvSet SIsLoading]
  ∧ error (state w') = None
  ∧ isLoading (state w') = false
  ∧ screen (state w') = MainScreen.
Proof. by vm_compute. Qed.
